(** * Product service: model and verified properties

    A shallow embedding of [service/models.py] (the [Product] model with its
    [Category] enumeration, [serialize], [deserialize], the lifecycle
    operations [create], [update], [delete] and the lookup [find]) and of the
    package initialisation in [service/__init__.py].

    - Python objects are dynamically typed, so that an attribute or an entry
      of a mapping holds an element of a universe [PyVal] of scalar values:
      [None], booleans, integers, strings, decimals and members of
      [Category].  Strings are sequences of ASCII characters.
    - Python's [decimal.Decimal] is modelled with its constructor, its
      [__str__] and its comparison with zero, following the standard
      library.
    - The receiver [self] of a method is mutable: a method is a computation
      in a state-and-exception monad whose state holds the receiver, so that
      the receiver is observable when an exception escapes.
    - The database is a table of products by primary key with a sequence
      for new keys; [db.session] is a unit of work that [commit] applies.
      The receiver of a lifecycle operation is the object the session knows
      for its [id].  Column types, [NOT NULL] constraints and connection
      failures are the database's and have no part in the model. *)

From Stdlib Require Import ZArith NArith String Ascii List Bool Lia.
From stdpp Require Import gmap strings.
Import ListNotations.
Open Scope string_scope.
Open Scope list_scope.

(** ** Characters and digit strings *)

Definition char_code (c : ascii) : N := N_of_ascii c.

Definition is_digit (c : ascii) : bool :=
  ((48 <=? char_code c) && (char_code c <=? 57))%N.

(** [str.isspace] on ASCII characters: tab, line feed, vertical tab, form
    feed, carriage return, the four separators 28..31 and the space. *)
Definition is_space (c : ascii) : bool :=
  (((9 <=? char_code c) && (char_code c <=? 13))
   || ((28 <=? char_code c) && (char_code c <=? 32)))%N.

Definition is_underscore (c : ascii) : bool := (char_code c =? 95)%N.

(** Lower-casing of one ASCII letter, as the case-insensitive matching of
    Python's [re.IGNORECASE] needs it. *)
Definition lower (c : ascii) : ascii :=
  if ((65 <=? char_code c) && (char_code c <=? 90))%N
  then ascii_of_N (char_code c + 32) else c.

Definition digit_val (c : ascii) : N := (char_code c - 48)%N.

Definition digit_char (d : N) : ascii := ascii_of_N (48 + d).

(** [int(s)] for a string of decimal digits (most significant first); the
    empty string counts as zero. *)
Definition digits_value (l : list ascii) : N :=
  fold_left (fun acc c => (10 * acc + digit_val c)%N) l 0%N.

Fixpoint digits_fuel (fuel : nat) (n : N) (acc : list ascii) : list ascii :=
  match fuel with
  | O => acc
  | S f =>
      let acc' := digit_char (n mod 10) :: acc in
      if (n / 10 =? 0)%N then acc' else digits_fuel f (n / 10) acc'
  end.

(** [str(n)] for a non-negative integer: no leading zero, ["0"] for zero.
    A number has no more decimal digits than binary ones. *)
Definition N_digits (n : N) : list ascii :=
  digits_fuel (S (N.to_nat (N.log2 n))) n [].

(** [str(z)] for an integer. *)
Definition Z_digits (z : Z) : list ascii :=
  if (z <? 0)%Z then "-"%char :: N_digits (Z.abs_N z) else N_digits (Z.abs_N z).

(** The format ["%+d" % z]: the sign is always written. *)
Definition Z_signed_digits (z : Z) : list ascii :=
  (if (z <? 0)%Z then "-"%char else "+"%char) :: N_digits (Z.abs_N z).

(** The longest prefix of digits, and what follows it. *)
Fixpoint span_digits (l : list ascii) : list ascii * list ascii :=
  match l with
  | c :: r =>
      if is_digit c
      then let (ds, rest) := span_digits r in (c :: ds, rest)
      else ([], l)
  | [] => ([], [])
  end.

Fixpoint drop_space (l : list ascii) : list ascii :=
  match l with
  | c :: r => if is_space c then drop_space r else l
  | [] => []
  end.

(** [str.strip()] *)
Definition strip (l : list ascii) : list ascii :=
  rev (drop_space (rev (drop_space l))).

(** [str.replace("_", "")] *)
Definition remove_underscores (l : list ascii) : list ascii :=
  List.filter (fun c => negb (is_underscore c)) l.

Definition zeros (n : nat) : list ascii := repeat "0"%char n.

(** ** Python's [decimal.Decimal]

    A decimal is a sign, a coefficient and an exponent (the value
    [(-1)^sign * coeff * 10^exp]), an infinity, or a quiet or signaling NaN
    carrying a diagnostic number.  The library keeps the coefficient as a
    digit string without leading zeros, which a natural number represents
    one to one. *)

Inductive Decimal : Type :=
| Finite (sign : bool) (coeff : N) (exp : Z)
| Infinity (sign : bool)
| NaN (sign : bool) (signaling : bool) (diag : N).

Definition sign_chars (sign : bool) : list ascii :=
  if sign then ["-"%char] else [].

(** The digits of a finite decimal laid out as [Decimal.__str__] does:
    plain notation when the exponent is at most zero and the number is not
    too small, scientific notation with one digit before the point
    otherwise. *)
Definition finite_chars (coeff : N) (exp : Z) : list ascii :=
  let ds := N_digits coeff in
  let len := Z.of_nat (length ds) in
  let leftdigits := (exp + len)%Z in
  let dotplace :=
    if ((exp <=? 0) && (-6 <? leftdigits))%Z then leftdigits else 1%Z in
  let intpart :=
    if (dotplace <=? 0)%Z then ["0"%char]
    else if (len <=? dotplace)%Z then ds ++ zeros (Z.to_nat (dotplace - len))
    else firstn (Z.to_nat dotplace) ds in
  let fracpart :=
    if (dotplace <=? 0)%Z then "."%char :: zeros (Z.to_nat (- dotplace)) ++ ds
    else if (len <=? dotplace)%Z then []
    else "."%char :: skipn (Z.to_nat dotplace) ds in
  let exppart :=
    if (leftdigits =? dotplace)%Z then []
    else "E"%char :: Z_signed_digits (leftdigits - dotplace) in
  intpart ++ fracpart ++ exppart.

Definition diag_chars (diag : N) : list ascii :=
  if (diag =? 0)%N then [] else N_digits diag.

Definition Decimal_chars (d : Decimal) : list ascii :=
  match d with
  | Finite s c e => sign_chars s ++ finite_chars c e
  | Infinity s => sign_chars s ++ list_ascii_of_string "Infinity"
  | NaN s false n => sign_chars s ++ list_ascii_of_string "NaN" ++ diag_chars n
  | NaN s true n => sign_chars s ++ list_ascii_of_string "sNaN" ++ diag_chars n
  end.

(** [str(d)], that is [Decimal.__str__]. *)
Definition Decimal_str (d : Decimal) : string :=
  string_of_list_ascii (Decimal_chars d).

(** The exponent of a numeric string, after its [E]: an optional sign and at
    least one digit, up to the end of the string. *)
Definition parse_exponent (l : list ascii) : option Z :=
  let '(neg, l') :=
    match l with
    | "-"%char :: r => (true, r)
    | "+"%char :: r => (false, r)
    | _ => (false, l)
    end in
  match span_digits l' with
  | ((_ :: _) as ds, []) =>
      Some (if neg then (- Z.of_N (digits_value ds))%Z else Z.of_N (digits_value ds))
  | _ => None
  end.

(** The numeric alternative of the constructor's grammar, on a lower-cased
    string without its sign: digits with an optional fraction (at least one
    digit in all), then an optional exponent.  The result is the coefficient
    [int(intpart + fracpart)] and the exponent [exp - len(fracpart)]. *)
Definition parse_finite (l : list ascii) : option (N * Z) :=
  let '(ip, r1) := span_digits l in
  let '(fp, r2) :=
    match r1 with
    | "."%char :: t => span_digits t
    | _ => ([], r1)
    end in
  match ip ++ fp with
  | [] => None
  | (_ :: _) as ds =>
      match r2 with
      | [] => Some (digits_value ds, (- Z.of_nat (length fp))%Z)
      | "e"%char :: r3 =>
          match parse_exponent r3 with
          | Some e => Some (digits_value ds, (e - Z.of_nat (length fp))%Z)
          | None => None
          end
      | _ => None
      end
  end.

(** The other alternatives: [Inf], [Infinity], and [NaN] or [sNaN] followed
    by diagnostic digits. *)
Definition parse_special (sign : bool) (l : list ascii) : option Decimal :=
  match l with
  | ["i"; "n"; "f"]%char => Some (Infinity sign)
  | ["i"; "n"; "f"; "i"; "n"; "i"; "t"; "y"]%char => Some (Infinity sign)
  | "n"%char :: "a"%char :: "n"%char :: ds =>
      if forallb is_digit ds then Some (NaN sign false (digits_value ds)) else None
  | "s"%char :: "n"%char :: "a"%char :: "n"%char :: ds =>
      if forallb is_digit ds then Some (NaN sign true (digits_value ds)) else None
  | _ => None
  end.

Definition parse_decimal (l : list ascii) : option Decimal :=
  let '(sign, r) :=
    match l with
    | "-"%char :: r => (true, r)
    | "+"%char :: r => (false, r)
    | _ => (false, l)
    end in
  match parse_finite r with
  | Some (c, e) => Some (Finite sign c e)
  | None => parse_special sign r
  end.

(** [Decimal(s)] for a string [s]: surrounding whitespace is stripped,
    underscores are removed, and the rest is matched case-insensitively.
    [None] stands for the syntax error, which the default context raises as
    [InvalidOperation]. *)
Definition Decimal_of_str (s : string) : option Decimal :=
  parse_decimal (map lower (remove_underscores (strip (list_ascii_of_string s)))).

(** [Decimal(n)] for an integer [n]. *)
Definition Decimal_of_int (n : Z) : Decimal :=
  Finite (n <? 0)%Z (Z.abs_N n) 0.

Definition Decimal_is_nan (d : Decimal) : bool :=
  match d with NaN _ _ _ => true | _ => false end.

(** The sign of a decimal that is not a NaN, as its comparison with zero
    sees it: both zeros compare equal to zero. *)
Definition Decimal_negative (d : Decimal) : bool :=
  match d with
  | Finite s c _ => s && negb (c =? 0)%N
  | Infinity s => s
  | NaN _ _ _ => false
  end.

(** ** The [Category] enumeration *)

Inductive Category : Type :=
| UNKNOWN | CLOTHS | FOOD | HOUSEWARES | AUTOMOTIVE | TOOLS.

Definition Category_name (c : Category) : string :=
  match c with
  | UNKNOWN => "UNKNOWN"
  | CLOTHS => "CLOTHS"
  | FOOD => "FOOD"
  | HOUSEWARES => "HOUSEWARES"
  | AUTOMOTIVE => "AUTOMOTIVE"
  | TOOLS => "TOOLS"
  end.

Definition Category_value (c : Category) : Z :=
  match c with
  | UNKNOWN => 0
  | CLOTHS => 1
  | FOOD => 2
  | HOUSEWARES => 3
  | AUTOMOTIVE => 4
  | TOOLS => 5
  end.

Definition Category_members : list Category :=
  [UNKNOWN; CLOTHS; FOOD; HOUSEWARES; AUTOMOTIVE; TOOLS].

(** The member of the enumeration with a given name, if there is one. *)
Definition Category_lookup (s : string) : option Category :=
  find (fun c => String.eqb (Category_name c) s) Category_members.

(** ** Python values and exceptions *)

(** The scalar values an attribute of a [Product] or an entry of a decoded
    mapping holds: [None], booleans, integers, strings, decimals and members
    of [Category].  Binary floats and containers as entries are outside the
    model. *)
Inductive PyVal : Type :=
| VNone
| VBool (b : bool)
| VInt (n : Z)
| VStr (s : string)
| VDecimal (d : Decimal)
| VCategory (c : Category).

(** The argument of [deserialize]: a [dict] with string keys, or a value
    that is not a [dict]. *)
Inductive PyObj : Type :=
| ODict (d : gmap string PyVal)
| OVal (v : PyVal).

(** [type(v).__name__] *)
Definition type_name (v : PyVal) : string :=
  match v with
  | VNone => "NoneType"
  | VBool _ => "bool"
  | VInt _ => "int"
  | VStr _ => "str"
  | VDecimal _ => "Decimal"
  | VCategory _ => "Category"
  end.

(** [str(v)] *)
Definition py_str (v : PyVal) : string :=
  match v with
  | VNone => "None"
  | VBool b => if b then "True" else "False"
  | VInt n => string_of_list_ascii (Z_digits n)
  | VStr s => s
  | VDecimal d => Decimal_str d
  | VCategory c => "Category." +:+ Category_name c
  end.

(** [bool(v)]: the truth value that [not v] negates. *)
Definition truthy (v : PyVal) : bool :=
  match v with
  | VNone => false
  | VBool b => b
  | VInt n => negb (n =? 0)%Z
  | VStr s => negb (String.eqb s "")
  | VDecimal (Finite _ c _) => negb (c =? 0)%N
  | VDecimal _ => true
  | VCategory _ => true
  end.

(** The exceptions of the program, each with [args[0]] where the program
    reads it.  [InvalidOperation] carries the name of the signal of the
    [decimal] module it reports; [OtherError] is an exception of any other
    class derived from [Exception]; [SystemExit] is what [sys.exit] raises
    and is not derived from [Exception]. *)
Inductive exn : Type :=
| DataValidationError (msg : string)
| KeyError (key : string)
| TypeError (msg : string)
| ValueError (msg : string)
| AttributeError (msg : string)
| InvalidOperation (signal : string)
| OtherError (cls : string) (msg : string)
| SystemExit (code : Z).

(** [isinstance(e, Exception)] *)
Definition is_Exception (e : exn) : bool :=
  match e with SystemExit _ => false | _ => true end.

(** [str(e)]; the key of a [KeyError] is shown quoted, as [repr] shows a
    string without quotes or escapes in it. *)
Definition exn_str (e : exn) : string :=
  match e with
  | DataValidationError msg => msg
  | KeyError key => "'" +:+ key +:+ "'"
  | TypeError msg => msg
  | ValueError msg => msg
  | AttributeError msg => msg
  | InvalidOperation signal => "[<class 'decimal." +:+ signal +:+ "'>]"
  | OtherError _ msg => msg
  | SystemExit code => string_of_list_ascii (Z_digits code)
  end.

(** ** Computations with a state and exceptions *)

Inductive Result (A : Type) : Type :=
| Return (a : A)
| Raise (e : exn).

Arguments Return {A} a.
Arguments Raise {A} e.

(** A computation reads and changes a state and returns or raises; the
    state it leaves is kept when it raises. *)
Definition M (S A : Type) : Type := S -> S * Result A.

Definition ret {S A : Type} (a : A) : M S A := fun s => (s, Return a).

Definition raise {S A : Type} (e : exn) : M S A := fun s => (s, Raise e).

Definition bind {S A B : Type} (m : M S A) (k : A -> M S B) : M S B :=
  fun s =>
    match m s with
    | (s', Return a) => k a s'
    | (s', Raise e) => (s', Raise e)
    end.

(** A result that does not depend on the state, as a computation. *)
Definition lift {S A : Type} (r : Result A) : M S A := fun s => (s, r).

Definition get {S : Type} : M S S := fun s => (s, Return s).

Definition modify {S : Type} (f : S -> S) : M S unit := fun s => (f s, Return tt).

(** [try: body except ...]: the handler says which exceptions it catches. *)
Definition try_except {S A : Type} (body : M S A) (handler : exn -> option (M S A)) : M S A :=
  fun s =>
    match body s with
    | (s', Return a) => (s', Return a)
    | (s', Raise e) =>
        match handler e with
        | Some h => h s'
        | None => (s', Raise e)
        end
    end.

Declare Scope monad_scope.
Delimit Scope monad_scope with monad.
Notation "x <- c1 ;; c2" := (bind c1 (fun x => c2))
  (at level 100, c1 at next level, c2 at level 200, right associativity) : monad_scope.
Notation "c1 ;; c2" := (bind c1 (fun _ => c2))
  (at level 100, c2 at level 200, right associativity) : monad_scope.
Open Scope monad_scope.

(** ** Operations of the language and of the [decimal] module *)

(** [data[key]] *)
Definition getitem (data : gmap string PyVal) (key : string) : Result PyVal :=
  match data !! key with
  | Some v => Return v
  | None => Raise (KeyError key)
  end.

(** [Decimal(v)]: strings are parsed, integers (booleans among them) are
    converted exactly, a decimal is taken as it is, and the other values are
    refused with a [TypeError]. *)
Definition Decimal_new (v : PyVal) : Result Decimal :=
  match v with
  | VStr s =>
      match Decimal_of_str s with
      | Some d => Return d
      | None => Raise (InvalidOperation "ConversionSyntax")
      end
  | VInt n => Return (Decimal_of_int n)
  | VBool b => Return (Decimal_of_int (if b then 1 else 0))
  | VDecimal d => Return d
  | VNone | VCategory _ =>
      Raise (TypeError ("conversion from " +:+ type_name v +:+ " to Decimal is not supported"))
  end.

(** [getattr(Category, v)]: a member's name gives the member, another string
    raises [AttributeError], and a name that is not a string raises
    [TypeError].  The attributes that the class object has besides its
    members (such as [__members__]) are not modelled. *)
Definition getattr_Category (v : PyVal) : Result PyVal :=
  match v with
  | VStr s =>
      match Category_lookup s with
      | Some c => Return (VCategory c)
      | None => Raise (AttributeError s)
      end
  | _ => Raise (TypeError ("attribute name must be string, not '" +:+ type_name v +:+ "'"))
  end.

(** [v.name] *)
Definition getattr_name (v : PyVal) : Result string :=
  match v with
  | VCategory c => Return (Category_name c)
  | _ => Raise (AttributeError ("'" +:+ type_name v +:+ "' object has no attribute 'name'"))
  end.

(** [v < 0]: a comparison of a decimal NaN signals [InvalidOperation], which
    the default context raises. *)
Definition lt_zero (v : PyVal) : Result bool :=
  match v with
  | VDecimal d =>
      if Decimal_is_nan d then Raise (InvalidOperation "InvalidOperation")
      else Return (Decimal_negative d)
  | VInt n => Return (n <? 0)%Z
  | VBool _ => Return false
  | VNone | VStr _ | VCategory _ =>
      Raise (TypeError ("'<' not supported between instances of '"
                        +:+ type_name v +:+ "' and 'int'"))
  end.

(** ** The [Product] model *)

(** An instance and its attributes.  [id] is the integer primary key, or
    [None] before the instance is stored. *)
Record Product : Type := mkProduct {
  id : option Z;
  name : PyVal;
  description : PyVal;
  price : PyVal;
  available : PyVal;
  category : PyVal
}.

(** [Product()]: no attribute is set. *)
Definition Product_new : Product := mkProduct None VNone VNone VNone VNone VNone.

Definition set_id (v : option Z) (p : Product) : Product :=
  mkProduct v (name p) (description p) (price p) (available p) (category p).
Definition set_name (v : PyVal) (p : Product) : Product :=
  mkProduct (id p) v (description p) (price p) (available p) (category p).
Definition set_description (v : PyVal) (p : Product) : Product :=
  mkProduct (id p) (name p) v (price p) (available p) (category p).
Definition set_price (v : PyVal) (p : Product) : Product :=
  mkProduct (id p) (name p) (description p) v (available p) (category p).
Definition set_available (v : PyVal) (p : Product) : Product :=
  mkProduct (id p) (name p) (description p) (price p) v (category p).
Definition set_category (v : PyVal) (p : Product) : Product :=
  mkProduct (id p) (name p) (description p) (price p) (available p) v.

Definition id_value (i : option Z) : PyVal :=
  match i with Some n => VInt n | None => VNone end.

(** [Product.serialize]: the state is the receiver [self]. *)
Definition serialize : M Product (gmap string PyVal) :=
  self <- get ;;
  category_name <- lift (getattr_name (category self)) ;;
  ret (<["id" := id_value (id self)]>
       (<["name" := name self]>
        (<["description" := description self]>
         (<["price" := VStr (py_str (price self))]>
          (<["available" := available self]>
           (<["category" := VStr category_name]> ∅)))))).

(** The handlers of [deserialize]'s two [try] statements. *)
Definition except_InvalidOperation {A : Type} (e : exn) : option (M Product A) :=
  match e with
  | InvalidOperation _ => Some (raise (DataValidationError "Invalid price value"))
  | _ => None
  end.

Definition except_KeyError_TypeError_ValueError {A : Type} (e : exn) : option (M Product A) :=
  match e with
  | KeyError key =>
      Some (raise (DataValidationError ("Invalid product: missing " +:+ key)))
  | TypeError _ | ValueError _ =>
      Some (raise (DataValidationError ("Invalid value for product: " +:+ exn_str e)))
  | _ => None
  end.

(** [Product.deserialize]: the state is the receiver [self], which the
    assignments change one after the other. *)
Definition deserialize (data : PyObj) : M Product Product :=
  match data with
  | OVal _ => raise (DataValidationError "Invalid data format for deserializing a Product")
  | ODict data =>
      try_except
        (v <- lift (getitem data "name") ;;
         modify (set_name v) ;;
         v <- lift (getitem data "description") ;;
         modify (set_description v) ;;
         try_except
           (v <- lift (getitem data "price") ;;
            d <- lift (Decimal_new v) ;;
            modify (set_price (VDecimal d)))
           except_InvalidOperation ;;
         v <- lift (getitem data "available") ;;
         modify (set_available v) ;;
         v <- lift (getitem data "category") ;;
         c <- lift (getattr_Category v) ;;
         modify (set_category c))
        except_KeyError_TypeError_ValueError ;;
      self <- get ;;
      if negb (truthy (name self)) || negb (truthy (description self))
      then raise (DataValidationError "Invalid product: name and description are required")
      else
        negative <- lift (lt_zero (price self)) ;;
        if negative
        then raise (DataValidationError "Invalid product: price must be >= 0")
        else
          self <- get ;;
          ret self
  end.

(** The data-model invariants of a [Product]: a non-empty name and
    description, a price that is a decimal comparing [>= 0], and a category
    that is a member of the enumeration. *)
Definition nonempty_str (v : PyVal) : bool :=
  match v with VStr s => negb (String.eqb s "") | _ => false end.

Definition Decimal_ge_zero (v : PyVal) : bool :=
  match v with
  | VDecimal d => negb (Decimal_is_nan d) && negb (Decimal_negative d)
  | _ => false
  end.

Definition is_member (v : PyVal) : bool :=
  match v with VCategory _ => true | _ => false end.

Definition Product_valid (p : Product) : bool :=
  nonempty_str (name p) && nonempty_str (description p)
  && Decimal_ge_zero (price p) && is_member (category p).

(** ** The store, the session and the log *)

Inductive Level : Type := INFO | ERROR | CRITICAL.

(** The unit of work of [db.session]: whether the receiver has been added
    and the primary keys marked for deletion. *)
Record Session : Type := mkSession {
  added : bool;
  deleted : list Z
}.

Definition Session_clean : Session := mkSession false [].

(** The table of products by primary key, the sequence that numbers new
    rows, the session and the records logged so far (first record first).
    Column types and constraints are the database's and are not modelled. *)
Record World : Type := mkWorld {
  rows : gmap Z Product;
  next_id : Z;
  session : Session;
  log : list (Level * string)
}.

Definition logger (lvl : Level) (msg : string) (w : World) : World :=
  mkWorld (rows w) (next_id w) (session w) (log w ++ [(lvl, msg)]).

Definition on_self (f : Product -> Product) (s : Product * World) : Product * World :=
  (f (fst s), snd s).

Definition on_world (f : World -> World) (s : Product * World) : Product * World :=
  (fst s, f (snd s)).

(** [Product.query.get(i)]: the product of the row with primary key [i],
    whose [id] is that key, or [None]. *)
Definition query_get (w : World) (i : option Z) : option Product :=
  match i with
  | Some n => set_id (Some n) <$> rows w !! n
  | None => None
  end.

(** [db.session.add(self)] *)
Definition session_add (w : World) : World :=
  mkWorld (rows w) (next_id w) (mkSession true (deleted (session w))) (log w).

(** [db.session.delete(product)] *)
Definition session_delete (product : Product) (w : World) : World :=
  match id product with
  | Some i =>
      mkWorld (rows w) (next_id w)
        (mkSession (added (session w)) (i :: deleted (session w))) (log w)
  | None => w
  end.

(** [db.session.commit()] with the receiver in the session: an added
    receiver is inserted under the next key of the sequence, which becomes
    its [id]; a receiver whose [id] is the key of a row has its attribute
    values written over that row; then the rows marked for deletion are
    removed. *)
Definition session_commit (s : Product * World) : Product * World :=
  let self := fst s in
  let w := snd s in
  let '(self1, rows1, next1) :=
    if added (session w)
    then
      let stored := set_id (Some (next_id w)) self in
      (stored, <[next_id w := stored]> (rows w), (next_id w + 1)%Z)
    else
      match id self with
      | Some i =>
          (self,
           match rows w !! i with
           | Some _ => <[i := self]> (rows w)
           | None => rows w
           end,
           next_id w)
      | None => (self, rows w, next_id w)
      end in
  (self1, mkWorld (foldr base.delete rows1 (deleted (session w))) next1 Session_clean (log w)).

Definition is_some {A : Type} (o : option A) : bool :=
  match o with Some _ => true | None => false end.

(** ** Lifecycle operations: the state is the receiver and the world *)

(** [Product.create] *)
Definition create : M (Product * World) unit :=
  s <- get ;;
  modify (on_world (logger INFO ("Creating " +:+ py_str (name (fst s))))) ;;
  modify (on_self (set_id None)) ;;
  modify (on_world session_add) ;;
  modify session_commit.

(** [Product.update]; both operands of [or] are pure, so that evaluating
    the second when the first holds changes nothing. *)
Definition update : M (Product * World) unit :=
  s <- get ;;
  modify (on_world (logger INFO ("Saving " +:+ py_str (name (fst s))))) ;;
  s <- get ;;
  if negb (truthy (id_value (id (fst s))))
     || negb (is_some (query_get (snd s) (id (fst s))))
  then
    modify (on_world (logger ERROR "Attempt to update a Product with invalid ID")) ;;
    raise (DataValidationError "Update called with invalid ID field")
  else modify session_commit.

(** [Product.delete] *)
Definition delete : M (Product * World) unit :=
  s <- get ;;
  modify (on_world (logger INFO ("Deleting " +:+ py_str (name (fst s))))) ;;
  s <- get ;;
  if negb (truthy (id_value (id (fst s))))
  then
    modify (on_world (logger ERROR "Attempt to delete a Product with no id")) ;;
    raise (DataValidationError "Delete called with empty ID field")
  else
    match query_get (snd s) (id (fst s)) with
    | None =>
        modify (on_world (logger ERROR "Attempt to delete a Product that does not exist")) ;;
        raise (DataValidationError "Attempt to delete a Product that does not exist")
    | Some product =>
        modify (on_world (session_delete product)) ;;
        modify session_commit
    end.

(** [Product.find], a class method: the state is the world. *)
Definition find (product_id : Z) : M World (option Product) :=
  modify (logger INFO ("Processing lookup for id "
                       +:+ string_of_list_ascii (Z_digits product_id) +:+ " ...")) ;;
  w <- get ;;
  ret (query_get w (Some product_id)).

(** ** Package initialisation *)

(** [s.center(width, fillchar)] *)
Definition center (s : string) (width : nat) (fillchar : ascii) : string :=
  let marg := (width - String.length s)%nat in
  let left := (marg / 2 + (if Nat.odd marg && Nat.odd width then 1 else 0))%nat in
  string_of_list_ascii
    (repeat fillchar left ++ list_ascii_of_string s ++ repeat fillchar (marg - left)).

(** [except Exception as error]: log at critical severity, then
    [sys.exit(4)]. *)
Definition except_Exception (e : exn) : option (M World unit) :=
  if is_Exception e
  then Some (modify (logger CRITICAL (exn_str e +:+ ": Cannot continue")) ;;
             raise (SystemExit 4))
  else None.

(** The body of the package [service], from the banner to the record that
    the service is initialised (the creation of the application, its
    configuration and the set-up of the logging handlers come before, the
    imports of the routes after).  What [init_db(app)] does depends on the
    database, so that it is a computation given to the model. *)
Definition bootstrap (init_db : M World unit) : M World unit :=
  modify (logger INFO (string_of_list_ascii (repeat "*"%char 70))) ;;
  modify (logger INFO (center "  P E T   S E R V I C E   R U N N I N G  " 70 "*")) ;;
  modify (logger INFO (string_of_list_ascii (repeat "*"%char 70))) ;;
  try_except init_db except_Exception ;;
  modify (logger INFO "Service initialized!").

(** How the process that runs a module body ends: it goes on running when
    the body returns, [SystemExit] ends it with its code, and another
    exception that nothing catches ends it with status 1. *)
Inductive Outcome : Type :=
| Running
| Exited (status : Z).

Definition run (body : M World unit) (w : World) : World * Outcome :=
  match body w with
  | (w', Return _) => (w', Running)
  | (w', Raise (SystemExit code)) => (w', Exited code)
  | (w', Raise _) => (w', Exited 1)
  end.

(** ** Notions used in the statements *)

(** The keys [deserialize] reads, in the order in which it reads them. *)
Definition required_keys : list string :=
  ["name"; "description"; "price"; "available"; "category"].

(** The first required key, in reading order, that a mapping lacks. *)
Definition first_missing (data : gmap string PyVal) : option string :=
  List.find (fun k => negb (is_some (data !! k))) required_keys.

(** The mapping has a ["price"] entry that [Decimal] accepts. *)
Definition price_converts (data : gmap string PyVal) : bool :=
  match data !! "price" with
  | Some v => match Decimal_new v with Return _ => true | Raise _ => false end
  | None => false
  end.



Definition is_validation_error {A : Type} (r : Result A) : bool :=
  match r with
  | Raise (DataValidationError _) => true
  | _ => false
  end.

(** An empty table in a session without pending work, and nothing logged. *)
Definition World_new : World := mkWorld ∅ 1 Session_clean [].

(** The world once the banner of the package has been logged. *)
Definition after_banner (w : World) : World :=
  logger INFO (string_of_list_ascii (repeat "*"%char 70))
    (logger INFO (center "  P E T   S E R V I C E   R U N N I N G  " 70 "*")
       (logger INFO (string_of_list_ascii (repeat "*"%char 70)) w)).

(** The table, the sequence and the session of two worlds are the same,
    whatever was logged in between. *)
Definition same_store (w w' : World) : Prop :=
  rows w' = rows w /\ next_id w' = next_id w /\ session w' = session w.

(** ** Notions used in the proofs *)

Definition digitb (c : ascii) : Prop := is_digit c = true.

(** A character that [strip] and [replace] leave alone. *)
Definition plain (c : ascii) : Prop :=
  is_space c = false /\ is_underscore c = false.

(** A numeric string in lower case: integer digits, fraction digits after a
    point when there are any, and an exponent when there is one. *)
Definition number_chars (ip fp : list ascii) (ex : option Z) : list ascii :=
  ip ++ match fp with [] => [] | _ :: _ => "."%char :: fp end
     ++ match ex with None => [] | Some z => "e"%char :: Z_signed_digits z end.

(** What may follow a run of digits for [span_digits] to stop there. *)
Definition stops (rest : list ascii) : Prop :=
  match rest with
  | [] => True
  | c :: _ => is_digit c = false
  end.

(** ** Sample values *)

(** A product as a client sends it. *)
Definition example_data : gmap string PyVal :=
  <["name" := VStr "Hat"]>
  (<["description" := VStr "A red hat"]>
   (<["price" := VStr "12.50"]>
    (<["available" := VBool true]>
     (<["category" := VStr "CLOTHS"]> ∅)))).

(** The instance that [example_data] describes, stored under key 7. *)
Definition example_product : Product :=
  mkProduct (Some 7%Z) (VStr "Hat") (VStr "A red hat")
    (VDecimal (Finite false 1250 (-2))) (VBool true) (VCategory CLOTHS).

(** ** Query helpers that return lists *)

(** [cls.query.all()]: the products of the table, each with its key as
    [id].  The order is the database's and is not specified: statements
    about the list are about its elements. *)
Definition query_all (w : World) : list Product :=
  (fun entry => set_id (Some (fst entry)) (snd entry)) <$> map_to_list (rows w).

(** [Product.all], a class method. *)
Definition all : M World (list Product) :=
  modify (logger INFO "Processing all Products") ;;
  w <- get ;;
  ret (query_all w).

(** [cls.category == wanted] for a member [wanted] of the enumeration. *)
Definition same_member (v wanted : PyVal) : bool :=
  match v, wanted with
  | VCategory c, VCategory c' => (Category_value c =? Category_value c')%Z
  | _, _ => false
  end.

(** [Product.find_by_category], a class method: the name of the argument
    is read for the log record before anything else is done. *)
Definition find_by_category (wanted : PyVal) : M World (list Product) :=
  wanted_name <- lift (getattr_name wanted) ;;
  modify (logger INFO ("Processing category query for " +:+ wanted_name +:+ " ...")) ;;
  w <- get ;;
  ret (List.filter (fun p => same_member (category p) wanted) (query_all w)).

(** ** Worlds that the operations produce *)

(** The invariant of the table: no work is pending in the session, the
    sequence is positive, and a row holds a product whose [id] is the key
    of the row, a positive key that the sequence has already given out. *)
Definition World_wf (w : World) : Prop :=
  session w = Session_clean
  /\ (0 < next_id w)%Z
  /\ forall (i : Z) (p : Product),
      rows w !! i = Some p -> id p = Some i /\ (0 < i < next_id w)%Z.


(** A result that is a return. *)
Definition is_return {A : Type} (r : Result A) : bool :=
  match r with Return _ => true | Raise _ => false end.

(** The ways [deserialize] can go on a mapping, each with what it does to
    any receiver: the first entry that is missing or that does not convert
    ends the assignments, and when all are assigned the checks decide, the
    one on the name and the description first. *)
Inductive deserialize_case (m : gmap string PyVal) : M Product Product -> Prop :=
| case_no_name :
    m !! "name" = None ->
    deserialize_case m
      (fun r => (r, Raise (DataValidationError "Invalid product: missing name")))
| case_no_description (n : PyVal) :
    m !! "name" = Some n -> m !! "description" = None ->
    deserialize_case m
      (fun r => (set_name n r,
                 Raise (DataValidationError "Invalid product: missing description")))
| case_no_price (n d : PyVal) :
    m !! "name" = Some n -> m !! "description" = Some d -> m !! "price" = None ->
    deserialize_case m
      (fun r => (set_description d (set_name n r),
                 Raise (DataValidationError "Invalid product: missing price")))
| case_bad_price (n d pv : PyVal) (e : exn) (msg : string) :
    m !! "name" = Some n -> m !! "description" = Some d -> m !! "price" = Some pv ->
    Decimal_new pv = Raise e ->
    deserialize_case m
      (fun r => (set_description d (set_name n r), Raise (DataValidationError msg)))
| case_no_available (n d pv : PyVal) (dec : Decimal) :
    m !! "name" = Some n -> m !! "description" = Some d -> m !! "price" = Some pv ->
    Decimal_new pv = Return dec -> m !! "available" = None ->
    deserialize_case m
      (fun r => (set_price (VDecimal dec) (set_description d (set_name n r)),
                 Raise (DataValidationError "Invalid product: missing available")))
| case_no_category (n d pv a : PyVal) (dec : Decimal) :
    m !! "name" = Some n -> m !! "description" = Some d -> m !! "price" = Some pv ->
    Decimal_new pv = Return dec -> m !! "available" = Some a ->
    m !! "category" = None ->
    deserialize_case m
      (fun r => (set_available a
                   (set_price (VDecimal dec) (set_description d (set_name n r))),
                 Raise (DataValidationError "Invalid product: missing category")))
| case_category_not_str (n d pv a cv : PyVal) (dec : Decimal) (msg : string) :
    m !! "name" = Some n -> m !! "description" = Some d -> m !! "price" = Some pv ->
    Decimal_new pv = Return dec -> m !! "available" = Some a ->
    m !! "category" = Some cv -> getattr_Category cv = Raise (TypeError msg) ->
    deserialize_case m
      (fun r => (set_available a
                   (set_price (VDecimal dec) (set_description d (set_name n r))),
                 Raise (DataValidationError ("Invalid value for product: " +:+ msg))))
| case_category_unknown (n d pv a : PyVal) (dec : Decimal) (s : string) :
    m !! "name" = Some n -> m !! "description" = Some d -> m !! "price" = Some pv ->
    Decimal_new pv = Return dec -> m !! "available" = Some a ->
    m !! "category" = Some (VStr s) -> Category_lookup s = None ->
    deserialize_case m
      (fun r => (set_available a
                   (set_price (VDecimal dec) (set_description d (set_name n r))),
                 Raise (AttributeError s)))
| case_required (n d pv a cv : PyVal) (dec : Decimal) (c : Category) :
    m !! "name" = Some n -> m !! "description" = Some d -> m !! "price" = Some pv ->
    Decimal_new pv = Return dec -> m !! "available" = Some a ->
    m !! "category" = Some cv -> getattr_Category cv = Return (VCategory c) ->
    negb (truthy n) || negb (truthy d) = true ->
    deserialize_case m
      (fun r => (mkProduct (id r) n d (VDecimal dec) a (VCategory c),
                 Raise (DataValidationError
                          "Invalid product: name and description are required")))
| case_nan (n d pv a cv : PyVal) (dec : Decimal) (c : Category) :
    m !! "name" = Some n -> m !! "description" = Some d -> m !! "price" = Some pv ->
    Decimal_new pv = Return dec -> m !! "available" = Some a ->
    m !! "category" = Some cv -> getattr_Category cv = Return (VCategory c) ->
    negb (truthy n) || negb (truthy d) = false -> Decimal_is_nan dec = true ->
    deserialize_case m
      (fun r => (mkProduct (id r) n d (VDecimal dec) a (VCategory c),
                 Raise (InvalidOperation "InvalidOperation")))
| case_negative (n d pv a cv : PyVal) (dec : Decimal) (c : Category) :
    m !! "name" = Some n -> m !! "description" = Some d -> m !! "price" = Some pv ->
    Decimal_new pv = Return dec -> m !! "available" = Some a ->
    m !! "category" = Some cv -> getattr_Category cv = Return (VCategory c) ->
    negb (truthy n) || negb (truthy d) = false -> Decimal_is_nan dec = false ->
    Decimal_negative dec = true ->
    deserialize_case m
      (fun r => (mkProduct (id r) n d (VDecimal dec) a (VCategory c),
                 Raise (DataValidationError "Invalid product: price must be >= 0")))
| case_return (n d pv a cv : PyVal) (dec : Decimal) (c : Category) :
    m !! "name" = Some n -> m !! "description" = Some d -> m !! "price" = Some pv ->
    Decimal_new pv = Return dec -> m !! "available" = Some a ->
    m !! "category" = Some cv -> getattr_Category cv = Return (VCategory c) ->
    negb (truthy n) || negb (truthy d) = false -> Decimal_is_nan dec = false ->
    Decimal_negative dec = false ->
    deserialize_case m
      (fun r => (mkProduct (id r) n d (VDecimal dec) a (VCategory c),
                 Return (mkProduct (id r) n d (VDecimal dec) a (VCategory c)))).

(** * Proofs

    ** Digit strings *)

Lemma digit_cases (d : N) :
  (d < 10)%N -> In d [0; 1; 2; 3; 4; 5; 6; 7; 8; 9]%N.
Proof. intros H. simpl. lia. Qed.

Lemma digit_val_char (d : N) : (d < 10)%N -> digit_val (digit_char d) = d.
Proof.
  intros H. apply digit_cases in H. simpl in H.
  repeat (destruct H as [<- | H]; [reflexivity |]). destruct H.
Qed.

Lemma is_digit_char (d : N) : (d < 10)%N -> is_digit (digit_char d) = true.
Proof.
  intros H. apply digit_cases in H. simpl in H.
  repeat (destruct H as [<- | H]; [reflexivity |]). destruct H.
Qed.

Lemma fold_digits_acc (l : list ascii) (a : N) :
  fold_left (fun acc c => (10 * acc + digit_val c)%N) l a
  = (a * 10 ^ N.of_nat (length l) + digits_value l)%N.
Proof.
  unfold digits_value. revert a.
  induction l as [| c l IH]; intros a.
  - simpl. lia.
  - cbn [fold_left length]. rewrite IH, (IH (10 * 0 + digit_val c)%N).
    rewrite Nat2N.inj_succ, N.pow_succ_r'. lia.
Qed.

Lemma digits_value_cons (c : ascii) (l : list ascii) :
  digits_value (c :: l)
  = (digit_val c * 10 ^ N.of_nat (length l) + digits_value l)%N.
Proof.
  unfold digits_value at 1. cbn [fold_left]. rewrite fold_digits_acc. lia.
Qed.

Lemma digits_value_app (l1 l2 : list ascii) :
  digits_value (l1 ++ l2)
  = (digits_value l1 * 10 ^ N.of_nat (length l2) + digits_value l2)%N.
Proof.
  unfold digits_value at 1. rewrite fold_left_app.
  fold (digits_value l1). apply fold_digits_acc.
Qed.

Lemma digits_fuel_value (fuel : nat) :
  forall (n : N) (acc : list ascii),
    (n < 2 ^ N.of_nat fuel)%N ->
    digits_value (digits_fuel fuel n acc)
    = (n * 10 ^ N.of_nat (length acc) + digits_value acc)%N.
Proof.
  induction fuel as [| f IH]; intros n acc Hn.
  - simpl in Hn. assert (n = 0%N) by lia. subst n. simpl. lia.
  - cbn [digits_fuel].
    assert (Hmod : (n mod 10 < 10)%N) by (apply N.mod_lt; lia).
    assert (Hdiv : n = (10 * (n / 10) + n mod 10)%N) by (apply N.div_mod; lia).
    destruct (N.eqb_spec (n / 10) 0) as [Hz | Hz].
    + rewrite digits_value_cons, digit_val_char by assumption.
      assert (E : (n mod 10 = n)%N) by lia. rewrite E. reflexivity.
    + rewrite IH.
      * rewrite digits_value_cons, digit_val_char by assumption.
        cbn [length]. rewrite Nat2N.inj_succ, N.pow_succ_r'.
        set (P := (10 ^ N.of_nat (length acc))%N).
        set (q := (n / 10)%N) in *. set (r := (n mod 10)%N) in *.
        rewrite Hdiv. lia.
      * rewrite Nat2N.inj_succ, N.pow_succ_r' in Hn.
        assert (n / 10 <= n / 2)%N by (apply N.div_le_compat_l; lia).
        assert (n / 2 < 2 ^ N.of_nat f)%N by (apply N.Div0.div_lt_upper_bound; lia).
        lia.
Qed.

Lemma N_digits_value (n : N) : digits_value (N_digits n) = n.
Proof.
  unfold N_digits. rewrite digits_fuel_value.
  - unfold digits_value. cbn [length fold_left].
    change (N.of_nat 0) with 0%N. rewrite N.pow_0_r. lia.
  - rewrite Nat2N.inj_succ, N2Nat.id.
    destruct n as [| p]; [reflexivity |].
    apply N.log2_spec. lia.
Qed.

Lemma digits_fuel_digits (fuel : nat) :
  forall (n : N) (acc : list ascii),
    Forall digitb acc -> Forall digitb (digits_fuel fuel n acc).
Proof.
  induction fuel as [| f IH]; intros n acc Hacc; [exact Hacc |].
  cbn [digits_fuel].
  assert (Hd : Forall digitb (digit_char (n mod 10) :: acc)).
  { constructor; [| exact Hacc]. apply is_digit_char, N.mod_lt. lia. }
  destruct (n / 10 =? 0)%N; [exact Hd | apply IH, Hd].
Qed.

Lemma N_digits_digits (n : N) : Forall digitb (N_digits n).
Proof. apply digits_fuel_digits. constructor. Qed.

Lemma digits_fuel_length (fuel : nat) :
  forall (n : N) (acc : list ascii),
    (length acc + (if fuel is O then 0 else 1) <= length (digits_fuel fuel n acc))%nat.
Proof.
  induction fuel as [| f IH]; intros n acc; [simpl; lia |].
  cbn [digits_fuel].
  destruct (n / 10 =? 0)%N; [simpl; lia |].
  specialize (IH (n / 10)%N (digit_char (n mod 10) :: acc)).
  cbn [length] in IH. lia.
Qed.

Lemma N_digits_length (n : N) : (1 <= length (N_digits n))%nat.
Proof. unfold N_digits. pose proof (digits_fuel_length (S (N.to_nat (N.log2 n))) n []) as H. simpl in H. exact H. Qed.

(** ** Reading numeric strings *)

Lemma span_digits_app (ds rest : list ascii) :
  Forall digitb ds -> stops rest -> span_digits (ds ++ rest) = (ds, rest).
Proof.
  intros Hds Hrest. induction Hds as [| c ds Hc _ IH]; cbn [app span_digits].
  - destruct rest as [| c r]; [reflexivity |].
    cbn [span_digits]. unfold stops in Hrest. rewrite Hrest. reflexivity.
  - unfold digitb in Hc. rewrite Hc, IH. reflexivity.
Qed.

Lemma span_digits_all (ds : list ascii) :
  Forall digitb ds -> span_digits ds = (ds, []).
Proof.
  intros H. rewrite <- (app_nil_r ds) at 1. apply span_digits_app; [exact H | exact I].
Qed.

Lemma zeros_digits (k : nat) : Forall digitb (zeros k).
Proof. induction k; simpl; constructor; [reflexivity | assumption]. Qed.

Lemma zeros_length (k : nat) : length (zeros k) = k.
Proof. apply repeat_length. Qed.

Lemma digits_value_zeros (k : nat) (l : list ascii) :
  digits_value (zeros k ++ l) = digits_value l.
Proof.
  induction k as [| k IH]; [reflexivity |].
  cbn [zeros repeat app]. rewrite digits_value_cons.
  fold (zeros k). rewrite IH. reflexivity.
Qed.

Lemma parse_exponent_signed (z : Z) :
  parse_exponent (Z_signed_digits z) = Some z.
Proof.
  unfold parse_exponent, Z_signed_digits.
  pose proof (N_digits_length (Z.abs_N z)) as Hlen.
  pose proof (N_digits_value (Z.abs_N z)) as Hval.
  pose proof (span_digits_all _ (N_digits_digits (Z.abs_N z))) as Hspan.
  destruct (Z.ltb_spec z 0) as [Hz | Hz]; rewrite Hspan;
    (destruct (N_digits (Z.abs_N z)) as [| c l]; [simpl in Hlen; lia |]);
    rewrite Hval; f_equal; lia.
Qed.

Lemma parse_finite_number (ip fp : list ascii) (ex : option Z) :
  Forall digitb ip -> Forall digitb fp -> ip <> [] ->
  parse_finite (number_chars ip fp ex)
  = Some (digits_value (ip ++ fp),
          (match ex with Some z => z | None => 0 end - Z.of_nat (length fp))%Z).
Proof.
  intros Hip Hfp Hne. unfold parse_finite, number_chars.
  assert (Hex : stops match ex with None => [] | Some z => "e"%char :: Z_signed_digits z end).
  { destruct ex; [reflexivity | exact I]. }
  destruct fp as [| c fp'].
  - rewrite app_nil_l, span_digits_app by assumption.
    destruct ip as [| i ip']; [congruence |].
    destruct ex as [z |]; cbn [app]; rewrite ?parse_exponent_signed, ?app_nil_r;
      reflexivity.
  - remember (c :: fp') as F eqn:EF.
    rewrite span_digits_app by (assumption || reflexivity).
    cbn [app]. rewrite span_digits_app by assumption.
    destruct ip as [| i ip']; [congruence |].
    destruct ex as [z |]; cbn [app]; rewrite ?parse_exponent_signed; reflexivity.
Qed.

(** ** The layout of [Decimal.__str__] *)

Lemma lower_digit (c : ascii) : is_digit c = true -> lower c = c.
Proof.
  unfold is_digit, lower. intros H.
  apply andb_true_iff in H. destruct H as [H1 H2].
  apply N.leb_le in H1. apply N.leb_le in H2.
  destruct (N.leb_spec 65 (char_code c)); [lia | reflexivity].
Qed.

Lemma map_lower_digits (l : list ascii) : Forall digitb l -> map lower l = l.
Proof.
  induction 1 as [| c l Hc _ IH]; [reflexivity |].
  cbn [map]. rewrite lower_digit, IH by exact Hc. reflexivity.
Qed.

Lemma map_lower_signed (z : Z) :
  map lower (Z_signed_digits z) = Z_signed_digits z.
Proof.
  unfold Z_signed_digits. cbn [map].
  rewrite map_lower_digits by apply N_digits_digits.
  destruct (z <? 0)%Z; reflexivity.
Qed.

Lemma number_chars_frac (ip fp : list ascii) (ex : option Z) :
  fp <> [] ->
  number_chars ip fp ex
  = ip ++ "."%char :: fp
       ++ match ex with None => [] | Some z => "e"%char :: Z_signed_digits z end.
Proof. intros H. unfold number_chars. destruct fp; [congruence | reflexivity]. Qed.

Lemma number_chars_nofrac (ip : list ascii) (ex : option Z) :
  number_chars ip [] ex
  = ip ++ match ex with None => [] | Some z => "e"%char :: Z_signed_digits z end.
Proof. reflexivity. Qed.

(** The layout of [Decimal.__str__] is a numeric string that denotes the
    coefficient and the exponent it was made from. *)
Lemma finite_chars_layout (c : N) (e : Z) :
  exists (ip fp : list ascii) (ex : option Z),
    map lower (finite_chars c e) = number_chars ip fp ex
    /\ Forall digitb ip /\ Forall digitb fp /\ ip <> []
    /\ digits_value (ip ++ fp) = c
    /\ (match ex with Some z => z | None => 0 end - Z.of_nat (length fp))%Z = e.
Proof.
  unfold finite_chars.
  pose proof (N_digits_digits c) as Hds.
  pose proof (N_digits_length c) as Hlen.
  pose proof (N_digits_value c) as Hval.
  set (ds := N_digits c) in *. cbv zeta.
  set (len := Z.of_nat (length ds)).
  assert (Hlen' : (1 <= len)%Z) by (unfold len; lia).
  destruct ((e <=? 0) && (-6 <? e + len))%Z eqn:Hplain.
  - apply andb_true_iff in Hplain. destruct Hplain as [He _].
    apply Z.leb_le in He. rewrite Z.eqb_refl.
    destruct (Z.leb_spec (e + len) 0) as [Hl | Hl].
    + exists ["0"%char], (zeros (Z.to_nat (- (e + len))) ++ ds), None.
      assert (Hfp : Forall digitb (zeros (Z.to_nat (- (e + len))) ++ ds)).
      { apply Forall_app. split; [apply zeros_digits | exact Hds]. }
      rewrite number_chars_frac.
      2:{ intros E. apply (f_equal (@length ascii)) in E.
          rewrite length_app in E. simpl in E. lia. }
      repeat split.
      * rewrite !app_nil_r. cbn [app map]. rewrite map_lower_digits by exact Hfp.
        reflexivity.
      * constructor; [reflexivity | constructor].
      * exact Hfp.
      * discriminate.
      * change (["0"%char] ++ zeros (Z.to_nat (- (e + len))) ++ ds)
          with (zeros (S (Z.to_nat (- (e + len)))) ++ ds).
        rewrite digits_value_zeros. exact Hval.
      * rewrite length_app, zeros_length. fold len. lia.
    + destruct (Z.leb_spec len (e + len)) as [Hr | Hr].
      * assert (e = 0%Z) by lia. subst e.
        exists ds, [], None.
        repeat split; try assumption; try solve [constructor].
        -- replace (0 + len - len)%Z with 0%Z by lia.
           cbn [Z.to_nat zeros repeat]. rewrite !app_nil_r.
           rewrite map_lower_digits by exact Hds.
           rewrite number_chars_nofrac, app_nil_r. reflexivity.
        -- intros E. rewrite E in Hlen. simpl in Hlen. lia.
        -- rewrite app_nil_r. exact Hval.
      * exists (firstn (Z.to_nat (e + len)) ds), (skipn (Z.to_nat (e + len)) ds), None.
        assert (Hip : Forall digitb (firstn (Z.to_nat (e + len)) ds))
          by (apply Forall_take; exact Hds).
        assert (Hfp : Forall digitb (skipn (Z.to_nat (e + len)) ds))
          by (apply Forall_drop; exact Hds).
        assert (Hfl : length (skipn (Z.to_nat (e + len)) ds)
                      = (length ds - Z.to_nat (e + len))%nat) by apply length_skipn.
        rewrite number_chars_frac.
        2:{ intros E. rewrite E in Hfl. simpl in Hfl. lia. }
        repeat split; try assumption.
        -- rewrite !app_nil_r, map_app. cbn [map].
           rewrite !map_lower_digits by assumption. reflexivity.
        -- intros E. apply (f_equal (@length ascii)) in E.
           rewrite length_firstn in E. cbn [length] in E. lia.
        -- rewrite firstn_skipn. exact Hval.
        -- rewrite Hfl. lia.
  - assert (Hsci : (0 < e \/ e + len <= -6)%Z).
    { apply andb_false_iff in Hplain. destruct Hplain as [H | H].
      - apply Z.leb_gt in H. lia.
      - apply Z.ltb_ge in H. lia. }
    destruct (Z.leb_spec 1 0) as [Habs | _]; [lia |].
    destruct (Z.eqb_spec (e + len) 1) as [Habs | _]; [lia |].
    destruct (Z.leb_spec len 1) as [Hone | Hmany].
    + exists ds, [], (Some (e + len - 1)%Z).
      repeat split; try assumption; try solve [constructor].
      * replace (1 - len)%Z with 0%Z by lia.
        cbn [Z.to_nat zeros repeat]. rewrite !app_nil_r, app_nil_l.
        rewrite number_chars_nofrac, map_app. cbn [map].
        rewrite map_lower_digits, map_lower_signed by exact Hds. reflexivity.
      * intros E. rewrite E in Hlen. simpl in Hlen. lia.
      * rewrite app_nil_r. exact Hval.
      * simpl. lia.
    + exists (firstn 1 ds), (skipn 1 ds), (Some (e + len - 1)%Z).
      assert (Hip : Forall digitb (firstn 1 ds)) by (apply Forall_take; exact Hds).
      assert (Hfp : Forall digitb (skipn 1 ds)) by (apply Forall_drop; exact Hds).
      assert (Hfl : length (skipn 1 ds) = (length ds - 1)%nat) by apply length_skipn.
      rewrite number_chars_frac.
      2:{ intros E. rewrite E in Hfl. simpl in Hfl. lia. }
      change (Z.to_nat 1) with 1%nat.
      repeat split; try assumption.
      * rewrite map_app. cbn [app map].
        rewrite map_app. cbn [map].
        rewrite !map_lower_digits, map_lower_signed by assumption. reflexivity.
      * intros E. apply (f_equal (@length ascii)) in E.
        rewrite length_firstn in E. cbn [length] in E. lia.
      * rewrite firstn_skipn. exact Hval.
      * rewrite Hfl. lia.
Qed.

Lemma parse_finite_chars (c : N) (e : Z) :
  parse_finite (map lower (finite_chars c e)) = Some (c, e).
Proof.
  destruct (finite_chars_layout c e) as (ip & fp & ex & -> & Hip & Hfp & Hne & Hc & He).
  rewrite parse_finite_number by assumption. rewrite Hc, He. reflexivity.
Qed.

(** ** The constructor reads back what [__str__] writes *)

Create HintDb plain.

Lemma plain_digit (c : ascii) : digitb c -> plain c.
Proof.
  unfold digitb, plain, is_digit, is_space, is_underscore. intros H.
  apply andb_true_iff in H. destruct H as [H1 H2].
  apply N.leb_le in H1. apply N.leb_le in H2.
  split.
  - apply orb_false_iff. split; apply andb_false_iff.
    + right. apply N.leb_gt. lia.
    + right. apply N.leb_gt. lia.
  - apply N.eqb_neq. lia.
Qed.

Lemma plain_digits (l : list ascii) : Forall digitb l -> Forall plain l.
Proof. induction 1; constructor; auto using plain_digit. Qed.

Lemma plain_app (l1 l2 : list ascii) :
  Forall plain l1 -> Forall plain l2 -> Forall plain (l1 ++ l2).
Proof. intros H1 H2. apply Forall_app. split; assumption. Qed.

Lemma plain_cons (c : ascii) (l : list ascii) :
  plain c -> Forall plain l -> Forall plain (c :: l).
Proof. intros H1 H2. constructor; assumption. Qed.

Lemma plain_nil : Forall plain [].
Proof. constructor. Qed.

Lemma plain_N_digits (n : N) : Forall plain (N_digits n).
Proof. apply plain_digits, N_digits_digits. Qed.

Lemma plain_zeros (k : nat) : Forall plain (zeros k).
Proof. apply plain_digits, zeros_digits. Qed.

Lemma plain_take (k : nat) (l : list ascii) : Forall plain l -> Forall plain (take k l).
Proof. apply Forall_take. Qed.

Lemma plain_drop (k : nat) (l : list ascii) : Forall plain l -> Forall plain (drop k l).
Proof. apply Forall_drop. Qed.

Lemma plain_const (c : ascii) :
  is_space c || is_underscore c = false -> plain c.
Proof. intros H. apply orb_false_iff in H. exact H. Qed.

#[local] Hint Resolve plain_app plain_cons plain_nil plain_N_digits plain_zeros
  plain_take plain_drop : plain.
#[local] Hint Extern 1 (plain _) => (apply plain_const; reflexivity) : plain.

Lemma plain_signed (z : Z) : Forall plain (Z_signed_digits z).
Proof. unfold Z_signed_digits. destruct (z <? 0)%Z; auto with plain. Qed.

#[local] Hint Resolve plain_signed : plain.

Lemma plain_finite_chars (c : N) (e : Z) : Forall plain (finite_chars c e).
Proof.
  unfold finite_chars. cbv zeta.
  repeat match goal with
         | |- context [if ?b then _ else _] => destruct b
         end; auto 10 with plain.
Qed.

Lemma plain_Decimal_chars (d : Decimal) : Forall plain (Decimal_chars d).
Proof.
  destruct d as [s c e | s | s [|] n]; cbn [Decimal_chars list_ascii_of_string];
    unfold sign_chars, diag_chars;
    repeat match goal with
           | |- context [if ?b then _ else _] => destruct b
           end; auto 20 using plain_finite_chars with plain.
Qed.

Lemma drop_space_plain (l : list ascii) : Forall plain l -> drop_space l = l.
Proof.
  intros H. destruct H as [| c l [Hc _] _]; [reflexivity |].
  cbn [drop_space]. rewrite Hc. reflexivity.
Qed.

Lemma strip_plain (l : list ascii) : Forall plain l -> strip l = l.
Proof.
  intros H. unfold strip. rewrite (drop_space_plain l H).
  rewrite drop_space_plain by (apply Forall_rev; exact H).
  apply rev_involutive.
Qed.

Lemma remove_underscores_plain (l : list ascii) :
  Forall plain l -> remove_underscores l = l.
Proof.
  unfold remove_underscores.
  induction 1 as [| c l [_ Hc] _ IH]; [reflexivity |].
  cbn [List.filter]. rewrite Hc. cbn [negb]. rewrite IH. reflexivity.
Qed.

Lemma forallb_digits (l : list ascii) : Forall digitb l -> forallb is_digit l = true.
Proof.
  induction 1 as [| c l Hc _ IH]; [reflexivity |].
  cbn [forallb]. unfold digitb in Hc. rewrite Hc, IH. reflexivity.
Qed.

Lemma diag_chars_digits (n : N) : Forall digitb (diag_chars n).
Proof. unfold diag_chars. destruct (n =? 0)%N; [constructor | apply N_digits_digits]. Qed.

Lemma diag_chars_value (n : N) : digits_value (diag_chars n) = n.
Proof.
  unfold diag_chars. destruct (N.eqb_spec n 0) as [-> | _]; [reflexivity |].
  apply N_digits_value.
Qed.

(** A string that starts with a digit has no sign for the constructor to
    take off. *)
Lemma parse_decimal_digit_first (c : ascii) (l : list ascii) :
  is_digit c = true ->
  parse_decimal (c :: l)
  = match parse_finite (c :: l) with
    | Some (n, e) => Some (Finite false n e)
    | None => parse_special false (c :: l)
    end.
Proof.
  intros H.
  destruct c as [[|] [|] [|] [|] [|] [|] [|] [|]]; try discriminate H; reflexivity.
Qed.

Lemma number_chars_head (ip fp : list ascii) (ex : option Z) :
  Forall digitb ip -> ip <> [] ->
  exists c l, number_chars ip fp ex = c :: l /\ is_digit c = true.
Proof.
  intros H Hne. destruct H as [| c ip' Hc _]; [congruence |].
  exists c. eexists. split; [reflexivity | exact Hc].
Qed.

Lemma parse_decimal_chars (d : Decimal) :
  parse_decimal (map lower (Decimal_chars d)) = Some d.
Proof.
  destruct d as [s c e | s | s sig n].
  - cbn [Decimal_chars]. rewrite map_app.
    pose proof (parse_finite_chars c e) as Hparse.
    destruct s; cbn [sign_chars map app].
    + change (lower "-") with "-"%char. cbn [parse_decimal].
      rewrite Hparse. reflexivity.
    + destruct (finite_chars_layout c e) as (ip & fp & ex & Heq & Hip & _ & Hne & _).
      destruct (number_chars_head ip fp ex Hip Hne) as (h & t & Hht & Hh).
      rewrite Heq, Hht in *.
      rewrite parse_decimal_digit_first by exact Hh.
      rewrite Hparse. reflexivity.
  - destruct s; reflexivity.
  - assert (Hl : map lower (diag_chars n) = diag_chars n)
      by apply map_lower_digits, diag_chars_digits.
    pose proof (forallb_digits _ (diag_chars_digits n)) as Hall.
    pose proof (diag_chars_value n) as Hval.
    destruct s, sig; cbn [Decimal_chars sign_chars list_ascii_of_string app];
      rewrite ?map_app; cbn [map app]; rewrite Hl;
      vm_compute lower; cbn [parse_decimal parse_finite span_digits app];
      unfold parse_special; rewrite ?Hall, ?Hval; reflexivity.
Qed.

(** The constructor reads back what [__str__] writes. *)
Lemma Decimal_of_str_str (d : Decimal) : Decimal_of_str (Decimal_str d) = Some d.
Proof.
  unfold Decimal_of_str, Decimal_str.
  rewrite list_ascii_of_string_of_list_ascii.
  pose proof (plain_Decimal_chars d) as H.
  rewrite strip_plain, remove_underscores_plain by assumption.
  apply parse_decimal_chars.
Qed.

(** ** [deserialize], case by case *)

Ltac unfold_monad :=
  unfold try_except, bind, lift, modify, get, raise, ret.

(** The case in which every entry is there and the price and the category
    convert. *)
Section Assigned.

Variables (data : gmap string PyVal) (r : Product).
Variables (n d pv a cv c : PyVal) (dec : Decimal).

Hypothesis Hname : data !! "name" = Some n.
Hypothesis Hdescription : data !! "description" = Some d.
Hypothesis Hprice : data !! "price" = Some pv.
Hypothesis Hdecimal : Decimal_new pv = Return dec.
Hypothesis Havailable : data !! "available" = Some a.
Hypothesis Hcategory : data !! "category" = Some cv.
Hypothesis Hmember : getattr_Category cv = Return c.

(** All five attributes are assigned, then the checks decide. *)
Lemma deserialize_assigned :
  deserialize (ODict data) r
  = let q := mkProduct (id r) n d (VDecimal dec) a c in
    if negb (truthy n) || negb (truthy d)
    then (q, Raise (DataValidationError "Invalid product: name and description are required"))
    else if Decimal_is_nan dec
    then (q, Raise (InvalidOperation "InvalidOperation"))
    else if Decimal_negative dec
    then (q, Raise (DataValidationError "Invalid product: price must be >= 0"))
    else (q, Return q).
Proof.
  unfold deserialize, getitem. unfold_monad.
  rewrite Hname, Hdescription, Hprice, Hdecimal, Havailable, Hcategory, Hmember.
  cbn.
  destruct (negb (truthy n) || negb (truthy d)); [reflexivity |].
  destruct (Decimal_is_nan dec); [reflexivity |].
  destruct (Decimal_negative dec); reflexivity.
Qed.

(** A negative price is refused with a validation error. *)
Lemma deserialize_negative_price :
  Decimal_negative dec = true ->
  is_validation_error (snd (deserialize (ODict data) r)) = true.
Proof.
  intros Hneg. rewrite deserialize_assigned. cbv zeta. rewrite Hneg.
  destruct dec as [s co ex | s | s sig dg]; [| | discriminate Hneg];
    cbn [Decimal_is_nan]; destruct (negb (truthy n) || negb (truthy d)); reflexivity.
Qed.

(** C10. When the checks that follow the assignments refuse the mapping
    (a name or a description that is empty, a negative price), the
    validation error leaves the receiver with the five attributes assigned
    from the mapping, whatever they were before. *)
Theorem deserialize_not_atomic :
  truthy n = false \/ truthy d = false \/ Decimal_negative dec = true ->
  exists (q : Product) (msg : string),
    deserialize (ODict data) r = (q, Raise (DataValidationError msg))
    /\ name q = n /\ description q = d /\ price q = VDecimal dec
    /\ available q = a /\ category q = c.
Proof.
  intros Hbad. rewrite deserialize_assigned. cbv zeta.
  destruct (negb (truthy n) || negb (truthy d)) eqn:Hreq.
  - eexists. eexists. split; [reflexivity |]. repeat split; reflexivity.
  - apply orb_false_iff in Hreq. destruct Hreq as [H1 H2].
    apply negb_false_iff in H1. apply negb_false_iff in H2.
    destruct Hbad as [Hb | [Hb | Hb]]; [congruence | congruence |].
    rewrite Hb.
    destruct dec as [s co ex | s | s sig dg]; [| | discriminate Hb];
      cbn [Decimal_is_nan]; eexists; eexists;
      (split; [reflexivity |]); repeat split; reflexivity.
Qed.

(** A price that is a NaN passes the constructor and fails the comparison
    with zero, outside every [try] statement: when the name and the
    description are there, [InvalidOperation] escapes. *)
Lemma deserialize_nan_price :
  truthy n = true -> truthy d = true -> Decimal_is_nan dec = true ->
  snd (deserialize (ODict data) r) = Raise (InvalidOperation "InvalidOperation").
Proof.
  intros Htn Htd Hnan. rewrite deserialize_assigned. cbv zeta.
  rewrite Htn, Htd, Hnan. reflexivity.
Qed.

End Assigned.

Lemma deserialize_ignores_id (data : gmap string PyVal) (v : PyVal) (r : Product) :
  deserialize (ODict (<["id" := v]> data)) r = deserialize (ODict data) r.
Proof.
  unfold deserialize, getitem.
  rewrite !lookup_insert_ne by discriminate. reflexivity.
Qed.

Lemma Category_lookup_name (c : Category) : Category_lookup (Category_name c) = Some c.
Proof. destruct c; reflexivity. Qed.

Lemma Decimal_new_raises (v : PyVal) (e : exn) :
  Decimal_new v = Raise e ->
  e = InvalidOperation "ConversionSyntax" \/ exists msg, e = TypeError msg.
Proof.
  destruct v as [| b | n | s | d | c]; cbn [Decimal_new]; intros H;
    try discriminate H.
  - injection H as <-. right. eexists. reflexivity.
  - destruct (Decimal_of_str s); [discriminate H |].
    injection H as <-. left. reflexivity.
  - injection H as <-. right. eexists. reflexivity.
Qed.


(** The error names the first key that is missing, when the price entry,
    if it is read before that key, converts. *)
Lemma deserialize_first_missing (data : gmap string PyVal) (r : Product) (k : string) :
  first_missing data = Some k ->
  (k = "available" \/ k = "category" -> price_converts data = true) ->
  exists q,
    deserialize (ODict data) r
    = (q, Raise (DataValidationError ("Invalid product: missing " +:+ k))).
Proof.
  unfold first_missing, price_converts, deserialize, getitem. unfold_monad.
  cbn [List.find required_keys].
  destruct (data !! "name") as [n |] eqn:Hn; cbn [is_some negb];
    [| intros [= <-] _; cbn; eauto].
  destruct (data !! "description") as [d |] eqn:Hd; cbn [is_some negb];
    [| intros [= <-] _; cbn; eauto].
  destruct (data !! "price") as [pv |] eqn:Hp; cbn [is_some negb];
    [| intros [= <-] _; cbn; eauto].
  destruct (data !! "available") as [a |] eqn:Ha; cbn [is_some negb].
  - destruct (data !! "category") as [cv |] eqn:Hc; cbn [is_some negb];
      [discriminate |].
    intros [= <-] Hconv.
    destruct (Decimal_new pv) as [dec | e];
      [cbn; eauto | discriminate Hconv; auto].
  - intros [= <-] Hconv.
    destruct (Decimal_new pv) as [dec | e];
      [cbn; eauto | discriminate Hconv; auto].
Qed.

(** When [deserialize] returns, it returns the receiver, every entry was
    read and converted, and the checks passed. *)
Lemma deserialize_returns (data : PyObj) (r q x : Product) :
  deserialize data r = (q, Return x) ->
  x = q
  /\ exists (m : gmap string PyVal) (n d pv a cv c : PyVal) (dec : Decimal),
      data = ODict m
      /\ m !! "name" = Some n /\ m !! "description" = Some d
      /\ m !! "price" = Some pv /\ Decimal_new pv = Return dec
      /\ m !! "available" = Some a
      /\ m !! "category" = Some cv /\ getattr_Category cv = Return c
      /\ q = mkProduct (id r) n d (VDecimal dec) a c
      /\ truthy n = true /\ truthy d = true
      /\ Decimal_is_nan dec = false /\ Decimal_negative dec = false.
Proof.
  destruct data as [m | v]; [| discriminate].
  destruct (m !! "name") as [n |] eqn:Hn.
  2:{ unfold deserialize, getitem. unfold_monad. rewrite Hn. discriminate. }
  destruct (m !! "description") as [d |] eqn:Hd.
  2:{ unfold deserialize, getitem. unfold_monad. rewrite Hn, Hd. discriminate. }
  destruct (m !! "price") as [pv |] eqn:Hp.
  2:{ unfold deserialize, getitem. unfold_monad. rewrite Hn, Hd, Hp. discriminate. }
  destruct (Decimal_new pv) as [dec | e] eqn:Hdec.
  2:{ unfold deserialize, getitem. unfold_monad. rewrite Hn, Hd, Hp, Hdec.
      destruct (Decimal_new_raises pv e Hdec) as [-> | [msg ->]]; discriminate. }
  destruct (m !! "available") as [a |] eqn:Ha.
  2:{ unfold deserialize, getitem. unfold_monad. rewrite Hn, Hd, Hp, Hdec, Ha.
      discriminate. }
  destruct (m !! "category") as [cv |] eqn:Hc.
  2:{ unfold deserialize, getitem. unfold_monad. rewrite Hn, Hd, Hp, Hdec, Ha, Hc.
      discriminate. }
  destruct (getattr_Category cv) as [c | e] eqn:Hcat.
  2:{ unfold deserialize, getitem. unfold_monad.
      rewrite Hn, Hd, Hp, Hdec, Ha, Hc, Hcat.
      destruct cv as [| b | z | s | dv | cc]; cbn [getattr_Category] in Hcat;
        try (injection Hcat as <-; discriminate).
      destruct (Category_lookup s); [discriminate Hcat |].
      injection Hcat as <-. discriminate. }
  rewrite (deserialize_assigned m r n d pv a cv c dec) by assumption.
  cbv zeta.
  destruct (truthy n) eqn:Htn; [| discriminate].
  destruct (truthy d) eqn:Htd; [| discriminate].
  destruct (Decimal_is_nan dec) eqn:Hnan; [discriminate |].
  destruct (Decimal_negative dec) eqn:Hneg; [discriminate |].
  cbn [negb orb]. intros [= <- <-].
  split; [reflexivity |].
  exists m, n, d, pv, a, cv, c, dec. repeat split; assumption || reflexivity.
Qed.

(** ** Serialization: the claims *)

Lemma serialize_valid (p : Product) (c : Category) :
  category p = VCategory c ->
  serialize p
  = (p, Return (<["id" := id_value (id p)]>
                (<["name" := name p]>
                 (<["description" := description p]>
                  (<["price" := VStr (py_str (price p))]>
                   (<["available" := available p]>
                    (<["category" := VStr (Category_name c)]> ∅))))))).
Proof.
  intros Hc. unfold serialize. unfold_monad. rewrite Hc. reflexivity.
Qed.

(** C1. For every product that satisfies the data-model invariants,
    [serialize] returns a mapping from which [deserialize], on any receiver,
    returns a product with the same name, description, price, availability
    and category; the ["id"] entry is not read, and the receiver keeps its
    own [id]. *)
Theorem serialize_deserialize_roundtrip (p r : Product) :
  Product_valid p = true ->
  exists data : gmap string PyVal,
    serialize p = (p, Return data)
    /\ (forall v, deserialize (ODict (<["id" := v]> data)) r
                  = deserialize (ODict data) r)
    /\ exists q : Product,
        deserialize (ODict data) r = (q, Return q)
        /\ name q = name p /\ description q = description p
        /\ price q = price p /\ available q = available p
        /\ category q = category p /\ id q = id r.
Proof.
  intros Hvalid. unfold Product_valid in Hvalid.
  apply andb_true_iff in Hvalid. destruct Hvalid as [Hvalid Hcat].
  apply andb_true_iff in Hvalid. destruct Hvalid as [Hvalid Hprice].
  apply andb_true_iff in Hvalid. destruct Hvalid as [Hname Hdesc].
  destruct (category p) as [| | | | | c] eqn:Ec; try discriminate Hcat.
  destruct (price p) as [| | | | dec |] eqn:Ep; try discriminate Hprice.
  cbn [Decimal_ge_zero] in Hprice.
  apply andb_true_iff in Hprice. destruct Hprice as [Hnan Hneg].
  apply negb_true_iff in Hnan. apply negb_true_iff in Hneg.
  assert (Htn : truthy (name p) = true).
  { destruct (name p); try discriminate Hname. exact Hname. }
  assert (Htd : truthy (description p) = true).
  { destruct (description p); try discriminate Hdesc. exact Hdesc. }
  eexists. split; [apply (serialize_valid p c Ec) |].
  split; [intros v; apply deserialize_ignores_id |].
  rewrite Ep. cbn [py_str].
  rewrite (deserialize_assigned _ r (name p) (description p)
             (VStr (Decimal_str dec)) (available p)
             (VStr (Category_name c)) (VCategory c) dec).
  - cbv zeta. rewrite Htn, Htd, Hnan, Hneg. cbn [negb orb].
    eexists. split; [reflexivity |]. cbn. repeat split; reflexivity.
  - reflexivity.
  - reflexivity.
  - reflexivity.
  - cbn [Decimal_new]. rewrite Decimal_of_str_str. reflexivity.
  - reflexivity.
  - reflexivity.
  - cbn [getattr_Category]. rewrite Category_lookup_name. reflexivity.
Qed.

Lemma serialize_deserialize_roundtrip_witness :
  Product_valid example_product = true
  /\ exists data : gmap string PyVal,
      serialize example_product = (example_product, Return data)
      /\ (forall v, deserialize (ODict (<["id" := v]> data)) Product_new
                    = deserialize (ODict data) Product_new)
      /\ exists q : Product,
          deserialize (ODict data) Product_new = (q, Return q)
          /\ name q = name example_product
          /\ description q = description example_product
          /\ price q = price example_product
          /\ available q = available example_product
          /\ category q = category example_product
          /\ id q = id Product_new.
Proof.
  split; [reflexivity |].
  apply (serialize_deserialize_roundtrip example_product Product_new).
  reflexivity.
Defined.

(** C2. A mapping with every required key whose category is the string
    ["BOGUS"], the name of no member: [getattr] raises [AttributeError],
    which no handler of [deserialize] catches, so that the call ends with an
    exception that is not a validation error. *)
Theorem deserialize_unknown_category_escapes :
  deserialize (ODict (<["category" := VStr "BOGUS"]> example_data)) Product_new
  = (mkProduct None (VStr "Hat") (VStr "A red hat")
       (VDecimal (Finite false 1250 (-2))) (VBool true) VNone,
     Raise (AttributeError "BOGUS"))
  /\ Category_lookup "BOGUS" = None
  /\ is_validation_error
       (snd (deserialize (ODict (<["category" := VStr "BOGUS"]> example_data))
               Product_new)) = false.
Proof. repeat split; vm_compute; reflexivity. Qed.

(** A category that is not a string is refused with a validation error:
    the [TypeError] of [getattr] is caught. *)
Lemma deserialize_category_not_a_string (data : gmap string PyVal) (r : Product)
    (n d pv a cv : PyVal) (dec : Decimal) :
  data !! "name" = Some n ->
  data !! "description" = Some d ->
  data !! "price" = Some pv ->
  Decimal_new pv = Return dec ->
  data !! "available" = Some a ->
  data !! "category" = Some cv ->
  (forall s, cv <> VStr s) ->
  is_validation_error (snd (deserialize (ODict data) r)) = true.
Proof.
  intros Hn Hd Hp Hdec Ha Hc Hcv.
  unfold deserialize, getitem. unfold_monad.
  rewrite Hn, Hd, Hp, Hdec, Ha, Hc.
  destruct cv as [| b | z | s | dv | cc]; try reflexivity.
  exfalso. exact (Hcv s eq_refl).
Qed.

(** A price that [Decimal] cannot parse is refused with a validation
    error, as is one that no [Decimal] can be made from. *)
Lemma deserialize_unparsable_price (data : gmap string PyVal) (r : Product)
    (n d pv : PyVal) (e : exn) :
  data !! "name" = Some n ->
  data !! "description" = Some d ->
  data !! "price" = Some pv ->
  Decimal_new pv = Raise e ->
  is_validation_error (snd (deserialize (ODict data) r)) = true.
Proof.
  intros Hn Hd Hp Hdec.
  unfold deserialize, getitem. unfold_monad.
  rewrite Hn, Hd, Hp, Hdec.
  destruct (Decimal_new_raises pv e Hdec) as [-> | [msg ->]]; reflexivity.
Qed.

(** C5. A mapping with every required key whose price is the string
    ["NaN"]: [Decimal] parses it, the comparison [self.price < 0] after the
    [try] statement raises [InvalidOperation], and the call ends with an
    exception that is not a validation error. *)
Theorem deserialize_price_NaN_escapes :
  deserialize (ODict (<["price" := VStr "NaN"]> example_data)) Product_new
  = (mkProduct None (VStr "Hat") (VStr "A red hat")
       (VDecimal (NaN false false 0)) (VBool true) (VCategory CLOTHS),
     Raise (InvalidOperation "InvalidOperation"))
  /\ Decimal_new (VStr "NaN") = Return (NaN false false 0)
  /\ is_validation_error
       (snd (deserialize (ODict (<["price" := VStr "NaN"]> example_data))
               Product_new)) = false.
Proof. repeat split; vm_compute; reflexivity. Qed.




(** C9. Whatever the value of ["available"], when the other four entries
    pass, [deserialize] returns and the receiver's [available] is that very
    value. *)
Theorem deserialize_available_unchecked (data : gmap string PyVal) (r : Product)
    (n d pv cv c v : PyVal) (dec : Decimal) :
  data !! "name" = Some n -> truthy n = true ->
  data !! "description" = Some d -> truthy d = true ->
  data !! "price" = Some pv -> Decimal_new pv = Return dec ->
  Decimal_is_nan dec = false -> Decimal_negative dec = false ->
  data !! "category" = Some cv -> getattr_Category cv = Return c ->
  exists q : Product,
    deserialize (ODict (<["available" := v]> data)) r = (q, Return q)
    /\ available q = v
    /\ q = mkProduct (id r) n d (VDecimal dec) v c.
Proof.
  intros Hn Htn Hd Htd Hp Hdec Hnan Hneg Hc Hcat.
  rewrite (deserialize_assigned _ r n d pv v cv c dec);
    try (rewrite lookup_insert_ne by discriminate; assumption);
    try assumption; [| apply lookup_insert_eq].
  cbv zeta. rewrite Htn, Htd, Hnan, Hneg. cbn [negb orb].
  eexists. repeat split; reflexivity.
Qed.

Lemma deserialize_available_unchecked_witness :
  example_data !! "name" = Some (VStr "Hat") /\ truthy (VStr "Hat") = true
  /\ example_data !! "description" = Some (VStr "A red hat")
  /\ truthy (VStr "A red hat") = true
  /\ example_data !! "price" = Some (VStr "12.50")
  /\ Decimal_new (VStr "12.50") = Return (Finite false 1250 (-2))
  /\ Decimal_is_nan (Finite false 1250 (-2)) = false
  /\ Decimal_negative (Finite false 1250 (-2)) = false
  /\ example_data !! "category" = Some (VStr "CLOTHS")
  /\ getattr_Category (VStr "CLOTHS") = Return (VCategory CLOTHS)
  /\ exists q : Product,
      deserialize (ODict (<["available" := VStr "maybe"]> example_data)) Product_new
      = (q, Return q)
      /\ available q = VStr "maybe"
      /\ q = mkProduct (id Product_new) (VStr "Hat") (VStr "A red hat")
               (VDecimal (Finite false 1250 (-2))) (VStr "maybe") (VCategory CLOTHS).
Proof.
  do 10 (split; [vm_compute; reflexivity |]).
  apply (deserialize_available_unchecked example_data Product_new
           (VStr "Hat") (VStr "A red hat") (VStr "12.50") (VStr "CLOTHS")
           (VCategory CLOTHS) (VStr "maybe") (Finite false 1250 (-2)));
    vm_compute; reflexivity.
Defined.

Lemma deserialize_not_atomic_witness :
  <["price" := VStr "-5.00"]> example_data !! "name" = Some (VStr "Hat")
  /\ <["price" := VStr "-5.00"]> example_data !! "description" = Some (VStr "A red hat")
  /\ <["price" := VStr "-5.00"]> example_data !! "price" = Some (VStr "-5.00")
  /\ Decimal_new (VStr "-5.00") = Return (Finite true 500 (-2))
  /\ <["price" := VStr "-5.00"]> example_data !! "available" = Some (VBool true)
  /\ <["price" := VStr "-5.00"]> example_data !! "category" = Some (VStr "CLOTHS")
  /\ getattr_Category (VStr "CLOTHS") = Return (VCategory CLOTHS)
  /\ (truthy (VStr "Hat") = false \/ truthy (VStr "A red hat") = false
      \/ Decimal_negative (Finite true 500 (-2)) = true)
  /\ exists (q : Product) (msg : string),
      deserialize (ODict (<["price" := VStr "-5.00"]> example_data)) Product_new
      = (q, Raise (DataValidationError msg))
      /\ name q = VStr "Hat" /\ description q = VStr "A red hat"
      /\ price q = VDecimal (Finite true 500 (-2))
      /\ available q = VBool true /\ category q = VCategory CLOTHS.
Proof.
  do 7 (split; [vm_compute; reflexivity |]).
  split; [right; right; reflexivity |].
  apply (deserialize_not_atomic (<["price" := VStr "-5.00"]> example_data) Product_new
           (VStr "Hat") (VStr "A red hat") (VStr "-5.00") (VBool true)
           (VStr "CLOTHS") (VCategory CLOTHS) (Finite true 500 (-2)));
    try (vm_compute; reflexivity).
  right; right; reflexivity.
Defined.

(** ** Lifecycle and initialisation: the claims *)

(** *** Lifecycle operations *)

Lemma set_id_own (self : Product) (i : Z) :
  id self = Some i -> set_id (Some i) self = self.
Proof. destruct self as [j n d p a c]. cbn. intros ->. reflexivity. Qed.

(** [create] checks nothing: it stores the receiver under the next key. *)
Lemma create_stores (self : Product) (w : World) :
  session w = Session_clean ->
  create (self, w)
  = let stored := set_id (Some (next_id w)) self in
    ((stored,
      mkWorld (<[next_id w := stored]> (rows w)) (next_id w + 1) Session_clean
        (log w ++ [(INFO, "Creating " +:+ py_str (name self))])),
     Return tt).
Proof.
  intros Hs. destruct w as [rs nx ss lg]. cbn in Hs. subst ss. reflexivity.
Qed.

Lemma update_refused (self : Product) (w : World) :
  truthy (id_value (id self)) = false \/ query_get w (id self) = None ->
  update (self, w)
  = ((self,
      logger ERROR "Attempt to update a Product with invalid ID"
        (logger INFO ("Saving " +:+ py_str (name self)) w)),
     Raise (DataValidationError "Update called with invalid ID field")).
Proof.
  intros H. unfold update. unfold_monad. cbn [fst snd on_world].
  change (query_get (logger INFO ("Saving " +:+ py_str (name self)) w) (id self))
    with (query_get w (id self)).
  destruct H as [H | H]; rewrite H; [| rewrite orb_true_r]; reflexivity.
Qed.

Lemma update_overwrites (self old : Product) (w : World) (i : Z) :
  session w = Session_clean ->
  id self = Some i -> i <> 0%Z -> rows w !! i = Some old ->
  update (self, w)
  = ((self,
      mkWorld (<[i := self]> (rows w)) (next_id w) Session_clean
        (log w ++ [(INFO, "Saving " +:+ py_str (name self))])),
     Return tt).
Proof.
  intros Hs Hid Hi Hrow. destruct w as [rs nx ss lg]. cbn in Hs, Hrow. subst ss.
  destruct self as [j n d p a c]. cbn in Hid. subst j.
  apply Z.eqb_neq in Hi.
  unfold update, query_get, logger, on_world. unfold_monad.
  cbn [fst snd rows next_id session log id name id_value truthy].
  rewrite Hrow, Hi.
  cbn [negb orb is_some fmap option_fmap option_map].
  unfold session_commit.
  cbn [fst snd rows next_id session log id added deleted Session_clean foldr].
  rewrite Hrow. reflexivity.
Qed.

Lemma delete_no_id (self : Product) (w : World) :
  truthy (id_value (id self)) = false ->
  delete (self, w)
  = ((self,
      logger ERROR "Attempt to delete a Product with no id"
        (logger INFO ("Deleting " +:+ py_str (name self)) w)),
     Raise (DataValidationError "Delete called with empty ID field")).
Proof.
  intros H. unfold delete. unfold_monad. cbn [fst snd on_world].
  rewrite H. reflexivity.
Qed.

Lemma delete_unknown (self : Product) (w : World) :
  truthy (id_value (id self)) = true ->
  query_get w (id self) = None ->
  delete (self, w)
  = ((self,
      logger ERROR "Attempt to delete a Product that does not exist"
        (logger INFO ("Deleting " +:+ py_str (name self)) w)),
     Raise (DataValidationError "Attempt to delete a Product that does not exist")).
Proof.
  intros H1 H2. unfold delete. unfold_monad. cbn [fst snd on_world].
  change (query_get (logger INFO ("Deleting " +:+ py_str (name self)) w) (id self))
    with (query_get w (id self)).
  rewrite H1, H2. reflexivity.
Qed.

Lemma delete_removes (self old : Product) (w : World) (i : Z) :
  session w = Session_clean ->
  id self = Some i -> i <> 0%Z -> rows w !! i = Some old ->
  delete (self, w)
  = ((self,
      mkWorld (base.delete i (rows w)) (next_id w) Session_clean
        (log w ++ [(INFO, "Deleting " +:+ py_str (name self))])),
     Return tt).
Proof.
  intros Hs Hid Hi Hrow. destruct w as [rs nx ss lg]. cbn in Hs, Hrow. subst ss.
  destruct self as [j n d p a c]. cbn in Hid. subst j.
  apply Z.eqb_neq in Hi.
  unfold delete, query_get, logger, on_world. unfold_monad.
  cbn [fst snd rows next_id session log id name id_value truthy].
  rewrite Hrow, Hi.
  cbn [negb fmap option_fmap option_map].
  unfold session_delete, session_commit, set_id.
  cbn [fst snd rows next_id session log id added deleted Session_clean foldr].
  rewrite Hrow. rewrite delete_insert_eq. reflexivity.
Qed.

Lemma find_looks_up (i : Z) (w : World) :
  find i w
  = (logger INFO ("Processing lookup for id "
                  +:+ string_of_list_ascii (Z_digits i) +:+ " ...") w,
     Return (set_id (Some i) <$> rows w !! i)).
Proof. reflexivity. Qed.






(** C7. [delete] raises a validation error when the receiver's [id] is
    empty, and when it is the key of no row, the table being left as it is;
    when it is the key of a row, [delete] returns, the row is gone, a later
    [find] of that key returns [None], and the other rows are as they
    were. *)
Theorem delete_spec (self : Product) (w : World) :
  session w = Session_clean ->
  (truthy (id_value (id self)) = false ->
   exists w' : World,
     delete (self, w)
     = ((self, w'), Raise (DataValidationError "Delete called with empty ID field"))
     /\ same_store w w')
  /\ (truthy (id_value (id self)) = true -> query_get w (id self) = None ->
      exists w' : World,
        delete (self, w)
        = ((self, w'),
           Raise (DataValidationError "Attempt to delete a Product that does not exist"))
        /\ same_store w w')
  /\ (forall (i : Z) (old : Product),
        id self = Some i -> i <> 0%Z -> rows w !! i = Some old ->
        exists w' : World,
          delete (self, w) = ((self, w'), Return tt)
          /\ snd (find i w') = Return None
          /\ rows w' = base.delete i (rows w)
          /\ next_id w' = next_id w).
Proof.
  intros Hs. split; [| split].
  - intros H. rewrite (delete_no_id self w H).
    eexists. split; [reflexivity |]. repeat split.
  - intros H1 H2. rewrite (delete_unknown self w H1 H2).
    eexists. split; [reflexivity |]. repeat split.
  - intros i old Hid Hi Hrow.
    rewrite (delete_removes self old w i Hs Hid Hi Hrow).
    eexists. split; [reflexivity |].
    rewrite find_looks_up. cbn [snd rows next_id].
    rewrite lookup_delete_eq. repeat split; reflexivity.
Qed.

Lemma delete_spec_witness :
  session (mkWorld (<[7%Z := example_product]> ∅) 8 Session_clean []) = Session_clean
  /\ (exists w' : World,
        delete (set_id None example_product,
                mkWorld (<[7%Z := example_product]> ∅) 8 Session_clean [])
        = ((set_id None example_product, w'),
           Raise (DataValidationError "Delete called with empty ID field"))
        /\ same_store (mkWorld (<[7%Z := example_product]> ∅) 8 Session_clean []) w')
  /\ (exists w' : World,
        delete (set_id (Some 3%Z) example_product,
                mkWorld (<[7%Z := example_product]> ∅) 8 Session_clean [])
        = ((set_id (Some 3%Z) example_product, w'),
           Raise (DataValidationError "Attempt to delete a Product that does not exist"))
        /\ same_store (mkWorld (<[7%Z := example_product]> ∅) 8 Session_clean []) w')
  /\ (exists w' : World,
        delete (example_product,
                mkWorld (<[7%Z := example_product]> ∅) 8 Session_clean [])
        = ((example_product, w'), Return tt)
        /\ snd (find 7%Z w') = Return None
        /\ rows w' = base.delete 7%Z (<[7%Z := example_product]> ∅)
        /\ next_id w' = 8%Z).
Proof.
  split; [reflexivity |]. split; [| split].
  - refine (proj1 (delete_spec (set_id None example_product)
                     (mkWorld (<[7%Z := example_product]> ∅) 8 Session_clean [])
                     eq_refl) _).
    reflexivity.
  - refine (proj1 (proj2 (delete_spec (set_id (Some 3%Z) example_product)
                            (mkWorld (<[7%Z := example_product]> ∅) 8 Session_clean [])
                            eq_refl)) _ _); reflexivity.
  - refine (proj2 (proj2 (delete_spec example_product
                            (mkWorld (<[7%Z := example_product]> ∅) 8 Session_clean [])
                            eq_refl)) 7%Z example_product _ _ _);
      [reflexivity | discriminate | reflexivity].
Defined.

(** *** Package initialisation *)

(** C8. When the initialisation of the database raises an exception, a
    record of critical severity that starts with the text of the exception
    is logged and the process ends with status 4, which is neither 0 nor 1;
    when it returns, the process goes on running. *)
Theorem bootstrap_exit_status (init_db : M World unit) (w w1 : World) :
  (forall e : exn,
      init_db (after_banner w) = (w1, Raise e) -> is_Exception e = true ->
      exists status : Z,
        run (bootstrap init_db) w
        = (logger CRITICAL (exn_str e +:+ ": Cannot continue") w1, Exited status)
        /\ status = 4%Z /\ status <> 0%Z /\ status <> 1%Z)
  /\ (init_db (after_banner w) = (w1, Return tt) ->
      run (bootstrap init_db) w = (logger INFO "Service initialized!" w1, Running)).
Proof.
  split.
  - intros e Hinit He. exists 4%Z.
    split; [| split; [reflexivity | split; discriminate]].
    unfold run, bootstrap, except_Exception. unfold_monad.
    fold (after_banner w). rewrite Hinit, He. reflexivity.
  - intros Hinit.
    unfold run, bootstrap, except_Exception. unfold_monad.
    fold (after_banner w). rewrite Hinit. reflexivity.
Qed.

Lemma bootstrap_exit_status_witness :
  (exists status : Z,
      run (bootstrap (raise (OtherError "OperationalError" "DB connection failed")))
        World_new
      = (logger CRITICAL "DB connection failed: Cannot continue" (after_banner World_new),
         Exited status)
      /\ status = 4%Z /\ status <> 0%Z /\ status <> 1%Z)
  /\ run (bootstrap (ret tt)) World_new
     = (logger INFO "Service initialized!" (after_banner World_new), Running).
Proof.
  split.
  - refine (proj1 (bootstrap_exit_status
                     (raise (OtherError "OperationalError" "DB connection failed"))
                     World_new (after_banner World_new))
              (OtherError "OperationalError" "DB connection failed") _ _);
      reflexivity.
  - refine (proj2 (bootstrap_exit_status (ret tt) World_new (after_banner World_new)) _).
    reflexivity.
Defined.

(** * Further properties of the model and of the initialisation *)

(** * Further properties

    ** The table under the lifecycle operations *)

Lemma query_get_rows (w : World) (i : Z) :
  query_get w (Some i) = None <-> rows w !! i = None.
Proof.
  cbn [query_get]. destruct (rows w !! i); cbn; split; congruence.
Qed.

(** What [update] does, by cases on the receiver's [id]. *)
Lemma update_cases (self : Product) (w : World) :
  session w = Session_clean ->
  (exists w' : World,
      update (self, w)
      = ((self, w'), Raise (DataValidationError "Update called with invalid ID field"))
      /\ same_store w w')
  \/ (exists (i : Z) (old : Product),
        id self = Some i /\ i <> 0%Z /\ rows w !! i = Some old
        /\ update (self, w)
           = ((self,
               mkWorld (<[i := self]> (rows w)) (next_id w) Session_clean
                 (log w ++ [(INFO, "Saving " +:+ py_str (name self))])),
              Return tt)).
Proof.
  intros Hs.
  destruct (id self) as [i |] eqn:Hid.
  - destruct (Z.eq_dec i 0%Z) as [-> | Hi].
    + left. rewrite update_refused by (left; rewrite Hid; reflexivity).
      eexists. split; [reflexivity | repeat split].
    + destruct (rows w !! i) as [old |] eqn:Hrow.
      * right. exists i, old. repeat split; try assumption.
        apply (update_overwrites self old w i Hs Hid Hi Hrow).
      * left. rewrite update_refused.
        -- eexists. split; [reflexivity | repeat split].
        -- right. rewrite Hid. apply query_get_rows. exact Hrow.
  - left. rewrite update_refused by (left; rewrite Hid; reflexivity).
    eexists. split; [reflexivity | repeat split].
Qed.

(** What [delete] does, by cases on the receiver's [id]. *)
Lemma delete_cases (self : Product) (w : World) :
  session w = Session_clean ->
  (exists (w' : World) (msg : string),
      delete (self, w) = ((self, w'), Raise (DataValidationError msg))
      /\ same_store w w')
  \/ (exists (i : Z) (old : Product),
        id self = Some i /\ i <> 0%Z /\ rows w !! i = Some old
        /\ delete (self, w)
           = ((self,
               mkWorld (base.delete i (rows w)) (next_id w) Session_clean
                 (log w ++ [(INFO, "Deleting " +:+ py_str (name self))])),
              Return tt)).
Proof.
  intros Hs.
  destruct (id self) as [i |] eqn:Hid.
  - destruct (Z.eq_dec i 0%Z) as [-> | Hi].
    + left. rewrite delete_no_id by (rewrite Hid; reflexivity).
      eexists. eexists. split; [reflexivity | repeat split].
    + destruct (rows w !! i) as [old |] eqn:Hrow.
      * right. exists i, old. repeat split; try assumption.
        apply (delete_removes self old w i Hs Hid Hi Hrow).
      * left. rewrite delete_unknown.
        -- eexists. eexists. split; [reflexivity | repeat split].
        -- rewrite Hid. cbn. apply negb_true_iff, Z.eqb_neq. exact Hi.
        -- rewrite Hid. apply query_get_rows. exact Hrow.
  - left. rewrite delete_no_id by (rewrite Hid; reflexivity).
    eexists. eexists. split; [reflexivity | repeat split].
Qed.


Lemma create_wf (self : Product) (w : World) :
  World_wf w -> World_wf (snd (fst (create (self, w)))).
Proof.
  intros (Hclean & Hpos & Hrows).
  rewrite (create_stores self w Hclean). cbn [fst snd].
  split; [reflexivity |]. cbn [next_id rows]. split; [lia |].
  intros i p Hip. apply lookup_insert_Some in Hip.
  destruct Hip as [[<- <-] | [Hne Hip]].
  - destruct self; cbn. split; [reflexivity | lia].
  - destruct (Hrows i p Hip). split; [assumption | lia].
Qed.




Lemma World_new_wf : World_wf World_new.
Proof.
  split; [reflexivity |]. split; [reflexivity |].
  intros i p Hip. cbn in Hip. rewrite lookup_empty in Hip. discriminate Hip.
Qed.









(** X4. Once [delete] has returned, the receiver is stale: a second
    [delete] and an [update] of it both raise a validation error and leave
    the table as it is. *)
Theorem delete_then_stale (self old : Product) (w : World) (i : Z) :
  session w = Session_clean ->
  id self = Some i -> i <> 0%Z -> rows w !! i = Some old ->
  exists w1 : World,
    delete (self, w) = ((self, w1), Return tt)
    /\ (exists w2 : World,
           delete (self, w1)
           = ((self, w2),
              Raise (DataValidationError "Attempt to delete a Product that does not exist"))
           /\ same_store w1 w2)
    /\ (exists w2 : World,
           update (self, w1)
           = ((self, w2), Raise (DataValidationError "Update called with invalid ID field"))
           /\ same_store w1 w2).
Proof.
  intros Hs Hid Hi Hrow.
  rewrite (delete_removes self old w i Hs Hid Hi Hrow).
  eexists. split; [reflexivity |].
  assert (Hgone : query_get
                    (mkWorld (base.delete i (rows w)) (next_id w) Session_clean
                       (log w ++ [(INFO, "Deleting " +:+ py_str (name self))]))
                    (id self) = None).
  { rewrite Hid. apply query_get_rows. cbn [rows]. apply lookup_delete_eq. }
  split.
  - rewrite delete_unknown.
    + eexists. split; [reflexivity | repeat split].
    + rewrite Hid. cbn. apply negb_true_iff, Z.eqb_neq. exact Hi.
    + exact Hgone.
  - rewrite update_refused by (right; exact Hgone).
    eexists. split; [reflexivity | repeat split].
Qed.

Lemma delete_then_stale_witness :
  session (mkWorld (<[7%Z := example_product]> ∅) 8 Session_clean []) = Session_clean
  /\ id example_product = Some 7%Z /\ 7%Z <> 0%Z
  /\ rows (mkWorld (<[7%Z := example_product]> ∅) 8 Session_clean []) !! 7%Z
     = Some example_product
  /\ exists w1 : World,
      delete (example_product, mkWorld (<[7%Z := example_product]> ∅) 8 Session_clean [])
      = ((example_product, w1), Return tt)
      /\ (exists w2 : World,
             delete (example_product, w1)
             = ((example_product, w2),
                Raise (DataValidationError "Attempt to delete a Product that does not exist"))
             /\ same_store w1 w2)
      /\ (exists w2 : World,
             update (example_product, w1)
             = ((example_product, w2),
                Raise (DataValidationError "Update called with invalid ID field"))
             /\ same_store w1 w2).
Proof.
  split; [reflexivity |]. split; [reflexivity |]. split; [discriminate |].
  split; [reflexivity |].
  refine (delete_then_stale example_product example_product
            (mkWorld (<[7%Z := example_product]> ∅) 8 Session_clean []) 7%Z _ _ _ _);
    [reflexivity | reflexivity | discriminate | reflexivity].
Defined.



(** X6. Whatever the receiver and whether they return or raise, [update]
    and [delete] never add a row and never advance the sequence: [update]
    keeps the set of keys, [delete] removes at most the key that is the
    receiver's [id] and changes no other row. *)
Theorem update_delete_keys (self : Product) (w : World) :
  session w = Session_clean ->
  dom (rows (snd (fst (update (self, w))))) = dom (rows w)
  /\ next_id (snd (fst (update (self, w)))) = next_id w
  /\ next_id (snd (fst (delete (self, w)))) = next_id w
  /\ forall j : Z,
      Some j <> id self ->
      rows (snd (fst (delete (self, w)))) !! j = rows w !! j.
Proof.
  intros Hs. split; [| split; [| split]].
  - destruct (update_cases self w Hs)
      as [(w' & -> & (Hr & _)) | (i & old & Hid & Hi & Hrow & ->)]; cbn [fst snd rows].
    + rewrite Hr. reflexivity.
    + apply dom_insert_lookup_L. rewrite Hrow. eauto.
  - destruct (update_cases self w Hs)
      as [(w' & -> & (_ & Hn & _)) | (i & old & Hid & Hi & Hrow & ->)];
      cbn [fst snd next_id]; [exact Hn | reflexivity].
  - destruct (delete_cases self w Hs)
      as [(w' & msg & -> & (_ & Hn & _)) | (i & old & Hid & Hi & Hrow & ->)];
      cbn [fst snd next_id]; [exact Hn | reflexivity].
  - intros j Hj.
    destruct (delete_cases self w Hs)
      as [(w' & msg & -> & (Hr & _)) | (i & old & Hid & Hi & Hrow & ->)];
      cbn [fst snd rows].
    + rewrite Hr. reflexivity.
    + apply lookup_delete_ne. intros <-. apply Hj. symmetry. exact Hid.
Qed.

Lemma update_delete_keys_witness :
  session (mkWorld (<[7%Z := example_product]> ∅) 8 Session_clean []) = Session_clean
  /\ dom (rows (snd (fst (update (example_product,
                                  mkWorld (<[7%Z := example_product]> ∅) 8 Session_clean [])))))
     = dom (rows (mkWorld (<[7%Z := example_product]> ∅) 8 Session_clean []))
  /\ next_id (snd (fst (update (example_product,
                                mkWorld (<[7%Z := example_product]> ∅) 8 Session_clean []))))
     = 8%Z
  /\ next_id (snd (fst (delete (example_product,
                                mkWorld (<[7%Z := example_product]> ∅) 8 Session_clean []))))
     = 8%Z
  /\ forall j : Z,
      Some j <> id example_product ->
      rows (snd (fst (delete (example_product,
                              mkWorld (<[7%Z := example_product]> ∅) 8 Session_clean []))))
        !! j
      = rows (mkWorld (<[7%Z := example_product]> ∅) 8 Session_clean []) !! j.
Proof.
  split; [reflexivity |].
  exact (update_delete_keys example_product
           (mkWorld (<[7%Z := example_product]> ∅) 8 Session_clean []) eq_refl).
Defined.

(** ** Serialization *)

(** X7. [serialize] never changes the receiver and never raises a
    validation error: it returns exactly when the receiver's category is a
    member of the enumeration, and raises [AttributeError] otherwise, as it
    does on a product just made. *)
Theorem serialize_outcomes (p : Product) :
  fst (serialize p) = p
  /\ (is_member (category p) = true <-> is_return (snd (serialize p)) = true)
  /\ (is_member (category p) = false
      <-> exists msg : string, snd (serialize p) = Raise (AttributeError msg))
  /\ is_validation_error (snd (serialize p)) = false.
Proof.
  unfold serialize, bind, lift, get, ret.
  destruct (category p) as [| b | z | s | d | c]; cbn;
    repeat split; try congruence; try discriminate; eauto;
    intros (msg & H); discriminate H.
Qed.

(** X8. A mapping that [serialize] returns has the six keys [id], [name],
    [description], [price], [available] and [category] and no other; its
    price and its category are strings, its [id] is [None] or an integer,
    and the three other entries are the receiver's attributes as they
    are. *)
Theorem serialize_entries (p : Product) (m : gmap string PyVal) :
  snd (serialize p) = Return m ->
  dom m = {["id"; "name"; "description"; "price"; "available"; "category"]}
  /\ m !! "id" = Some (id_value (id p))
  /\ m !! "name" = Some (name p)
  /\ m !! "description" = Some (description p)
  /\ m !! "price" = Some (VStr (py_str (price p)))
  /\ m !! "available" = Some (available p)
  /\ exists c : Category,
      category p = VCategory c /\ m !! "category" = Some (VStr (Category_name c)).
Proof.
  intros H.
  destruct (category p) as [| b | z | s | d | c] eqn:Hc;
    try (unfold serialize, bind, lift, get, ret in H; rewrite Hc in H;
         discriminate H).
  rewrite (serialize_valid p c Hc) in H. cbn [snd] in H. injection H as <-.
  split.
  - rewrite !dom_insert_L, dom_empty_L. set_solver.
  - repeat split; try reflexivity. exists c. split; reflexivity.
Qed.

Lemma serialize_entries_witness :
  snd (serialize example_product) = Return (<["id" := VInt 7]> example_data)
  /\ dom (<["id" := VInt 7]> example_data)
     = {["id"; "name"; "description"; "price"; "available"; "category"]}
  /\ <["id" := VInt 7]> example_data !! "id" = Some (VInt 7)
  /\ <["id" := VInt 7]> example_data !! "name" = Some (VStr "Hat")
  /\ <["id" := VInt 7]> example_data !! "description" = Some (VStr "A red hat")
  /\ <["id" := VInt 7]> example_data !! "price" = Some (VStr "12.50")
  /\ <["id" := VInt 7]> example_data !! "available" = Some (VBool true)
  /\ exists c : Category,
      category example_product = VCategory c
      /\ <["id" := VInt 7]> example_data !! "category" = Some (VStr (Category_name c)).
Proof.
  assert (H : snd (serialize example_product) = Return (<["id" := VInt 7]> example_data))
    by reflexivity.
  split; [exact H |].
  exact (serialize_entries example_product (<["id" := VInt 7]> example_data) H).
Defined.

(** ** [deserialize] on every mapping *)

Lemma getattr_Category_raises (v : PyVal) (e : exn) :
  getattr_Category v = Raise e ->
  (exists s, v = VStr s /\ Category_lookup s = None /\ e = AttributeError s)
  \/ exists msg, e = TypeError msg.
Proof.
  destruct v as [| b | z | s | d | c]; cbn [getattr_Category]; intros H;
    try (injection H as <-; right; eexists; reflexivity).
  destruct (Category_lookup s) eqn:Hs; [discriminate H |].
  injection H as <-. left. exists s. auto.
Qed.

Lemma getattr_Category_returns (v c : PyVal) :
  getattr_Category v = Return c ->
  exists (s : string) (member : Category),
    v = VStr s /\ Category_lookup s = Some member /\ c = VCategory member.
Proof.
  destruct v as [| b | z | s | d | cc]; cbn [getattr_Category]; intros H;
    try discriminate H.
  destruct (Category_lookup s) as [member |] eqn:Hs; [| discriminate H].
  injection H as <-. exists s, member. auto.
Qed.

(** [deserialize] goes one of these ways. *)
Lemma deserialize_by_case (m : gmap string PyVal) :
  deserialize_case m (deserialize (ODict m)).
Proof.
  unfold deserialize, getitem. unfold_monad.
  destruct (m !! "name") as [n |] eqn:Hn;
    [| exact (case_no_name m Hn)].
  destruct (m !! "description") as [d |] eqn:Hd;
    [| exact (case_no_description m n Hn Hd)].
  destruct (m !! "price") as [pv |] eqn:Hp;
    [| exact (case_no_price m n d Hn Hd Hp)].
  destruct (Decimal_new pv) as [dec | e] eqn:Hdec.
  2:{ destruct (Decimal_new_raises pv e Hdec) as [-> | [msg ->]];
        exact (case_bad_price m n d pv _ _ Hn Hd Hp Hdec). }
  destruct (m !! "available") as [a |] eqn:Ha;
    [| exact (case_no_available m n d pv dec Hn Hd Hp Hdec Ha)].
  destruct (m !! "category") as [cv |] eqn:Hc;
    [| exact (case_no_category m n d pv a dec Hn Hd Hp Hdec Ha Hc)].
  destruct (getattr_Category cv) as [c | e] eqn:Hcat.
  - destruct (getattr_Category_returns cv c Hcat) as (s & member & -> & Hs & ->).
    cbn.
    destruct (negb (truthy n) || negb (truthy d)) eqn:Hreq;
      [exact (case_required m n d pv a (VStr s) dec member Hn Hd Hp Hdec Ha Hc Hcat Hreq) |].
    destruct (Decimal_is_nan dec) eqn:Hnan;
      [exact (case_nan m n d pv a (VStr s) dec member Hn Hd Hp Hdec Ha Hc Hcat Hreq Hnan) |].
    destruct (Decimal_negative dec) eqn:Hneg.
    + exact (case_negative m n d pv a (VStr s) dec member
               Hn Hd Hp Hdec Ha Hc Hcat Hreq Hnan Hneg).
    + exact (case_return m n d pv a (VStr s) dec member
               Hn Hd Hp Hdec Ha Hc Hcat Hreq Hnan Hneg).
  - destruct (getattr_Category_raises cv e Hcat) as [(s & -> & Hs & ->) | [msg ->]].
    + exact (case_category_unknown m n d pv a dec s Hn Hd Hp Hdec Ha Hc Hs).
    + exact (case_category_not_str m n d pv a cv dec msg Hn Hd Hp Hdec Ha Hc Hcat).
Qed.

(** X9. On every argument and every receiver, [deserialize] leaves the
    receiver's [id] as it is; when it returns, it returns the receiver;
    when it raises, the exception is a validation error, or the
    [AttributeError] of a category string that names no member, or the
    [InvalidOperation] of a price that converts to a NaN.  No [KeyError],
    [TypeError] or [ValueError] leaves it. *)
Theorem deserialize_outcomes (data : PyObj) (r : Product) :
  id (fst (deserialize data r)) = id r
  /\ (forall x : Product,
         snd (deserialize data r) = Return x -> x = fst (deserialize data r))
  /\ (forall e : exn,
         snd (deserialize data r) = Raise e ->
         (exists msg : string, e = DataValidationError msg)
         \/ (exists (m : gmap string PyVal) (s : string),
                data = ODict m /\ m !! "category" = Some (VStr s)
                /\ Category_lookup s = None /\ e = AttributeError s)
         \/ (exists (m : gmap string PyVal) (pv : PyVal) (dec : Decimal),
                data = ODict m /\ m !! "price" = Some pv
                /\ Decimal_new pv = Return dec /\ Decimal_is_nan dec = true
                /\ e = InvalidOperation "InvalidOperation")).
Proof.
  destruct data as [m | v].
  - destruct (deserialize_by_case m); cbn [fst snd id set_name set_description
      set_price set_available];
      (split; [reflexivity |]); (split; [intros x [=]; try subst x; reflexivity |]);
      intros e0 [= <-]; eauto 10.
  - cbn. split; [reflexivity |]. split; [discriminate |].
    intros e [= <-]. eauto.
Qed.

Lemma deserialize_outcomes_witness :
  id (fst (deserialize (ODict (<["price" := VStr "NaN"]> example_data)) example_product))
  = Some 7%Z
  /\ ((exists msg : string, InvalidOperation "InvalidOperation" = DataValidationError msg)
      \/ (exists (m : gmap string PyVal) (s : string),
             ODict (<["price" := VStr "NaN"]> example_data) = ODict m
             /\ m !! "category" = Some (VStr s)
             /\ Category_lookup s = None
             /\ InvalidOperation "InvalidOperation" = AttributeError s)
      \/ (exists (m : gmap string PyVal) (pv : PyVal) (dec : Decimal),
             ODict (<["price" := VStr "NaN"]> example_data) = ODict m
             /\ m !! "price" = Some pv
             /\ Decimal_new pv = Return dec /\ Decimal_is_nan dec = true
             /\ InvalidOperation "InvalidOperation" = InvalidOperation "InvalidOperation")).
Proof.
  destruct (deserialize_outcomes (ODict (<["price" := VStr "NaN"]> example_data))
              example_product) as (Hid & _ & Hraise).
  split; [exact Hid |].
  exact (Hraise (InvalidOperation "InvalidOperation") eq_refl).
Defined.

Ltac by_case m :=
  destruct (deserialize_by_case m);
  cbn [fst snd]; unfold price_converts in *;
  repeat match goal with
         | H : ?x = _, H' : context [match ?x with _ => _ end] |- _ =>
             rewrite H in H'
         end;
  cbn [is_return] in *; simplify_eq;
  try match goal with
      | H : getattr_Category ?v = _, H' : is_return (getattr_Category ?v) = _ |- _ =>
          rewrite H in H'; discriminate H'
      end;
  try reflexivity; try congruence.

(** X10. A [deserialize] that fails before the checks has assigned the
    attributes it read before the failure, in the order [name],
    [description], [price], [available], and has left the others as they
    were: nothing when the argument is no mapping or lacks a name, the name
    alone when the description is missing, and so on up to the four of them
    when the category is missing or is not a string. *)
Theorem deserialize_assigns_in_order (m : gmap string PyVal) (r : Product) :
  (forall v : PyVal, fst (deserialize (OVal v) r) = r)
  /\ (m !! "name" = None -> fst (deserialize (ODict m) r) = r)
  /\ (forall n : PyVal,
         m !! "name" = Some n -> m !! "description" = None ->
         fst (deserialize (ODict m) r) = set_name n r)
  /\ (forall n d : PyVal,
         m !! "name" = Some n -> m !! "description" = Some d ->
         price_converts m = false ->
         fst (deserialize (ODict m) r) = set_description d (set_name n r))
  /\ (forall (n d pv : PyVal) (dec : Decimal),
         m !! "name" = Some n -> m !! "description" = Some d ->
         m !! "price" = Some pv -> Decimal_new pv = Return dec ->
         m !! "available" = None ->
         fst (deserialize (ODict m) r)
         = set_price (VDecimal dec) (set_description d (set_name n r)))
  /\ (forall (n d pv a : PyVal) (dec : Decimal),
         m !! "name" = Some n -> m !! "description" = Some d ->
         m !! "price" = Some pv -> Decimal_new pv = Return dec ->
         m !! "available" = Some a ->
         (forall s : string, m !! "category" <> Some (VStr s)) ->
         fst (deserialize (ODict m) r)
         = set_available a
             (set_price (VDecimal dec) (set_description d (set_name n r)))).
Proof.
  split; [reflexivity |]. split; [| split; [| split; [| split]]].
  - intros Hn. by_case m.
  - intros n Hn Hd. by_case m.
  - intros n d Hn Hd Hp. by_case m.
  - intros n d pv dec Hn Hd Hp Hdec Ha. by_case m.
  - intros n d pv a dec Hn Hd Hp Hdec Ha Hc. by_case m.
    all: exfalso;
      try match goal with
          | H : getattr_Category _ = Return _ |- _ =>
              destruct (getattr_Category_returns _ _ H) as (s' & member & -> & _)
          end;
      match goal with
      | H : _ !! "category" = Some (VStr ?s) |- _ => exact (Hc s H)
      end.
Qed.

Lemma deserialize_assigns_in_order_witness :
  base.delete "price" example_data !! "name" = Some (VStr "Hat")
  /\ base.delete "price" example_data !! "description" = Some (VStr "A red hat")
  /\ price_converts (base.delete "price" example_data) = false
  /\ fst (deserialize (ODict (base.delete "price" example_data)) example_product)
     = set_description (VStr "A red hat") (set_name (VStr "Hat") example_product).
Proof.
  split; [reflexivity |]. split; [reflexivity |]. split; [reflexivity |].
  exact (proj1 (proj2 (proj2 (proj2 (deserialize_assigns_in_order
                                       (base.delete "price" example_data)
                                       example_product))))
           (VStr "Hat") (VStr "A red hat") eq_refl eq_refl eq_refl).
Defined.

(** X11. What [deserialize] does with a mapping does not depend on the
    receiver: it returns or raises the same exception on every receiver,
    and when it returns, the receivers end up equal apart from their
    [id]. *)
Theorem deserialize_receiver_independent (data : PyObj) (r1 r2 : Product) :
  snd (deserialize data r2)
  = match snd (deserialize data r1) with
    | Return x => Return (set_id (id r2) x)
    | Raise e => Raise e
    end
  /\ (is_return (snd (deserialize data r1)) = true ->
      fst (deserialize data r2) = set_id (id r2) (fst (deserialize data r1))).
Proof.
  destruct data as [m | v]; [| split; [reflexivity | discriminate]].
  destruct (deserialize_by_case m); cbn [fst snd is_return];
    (split; [reflexivity | try discriminate]); reflexivity.
Qed.

Lemma deserialize_receiver_independent_witness :
  is_return (snd (deserialize (ODict example_data) Product_new)) = true
  /\ fst (deserialize (ODict example_data) example_product)
     = set_id (id example_product) (fst (deserialize (ODict example_data) Product_new)).
Proof.
  split; [reflexivity |].
  exact (proj2 (deserialize_receiver_independent (ODict example_data)
                  Product_new example_product) eq_refl).
Defined.

(** ** What [deserialize] accepts *)

Section Entries.

Variables (m : gmap string PyVal) (r : Product).
Variables (n d pv a : PyVal) (s : string) (c : Category).

Hypothesis Hname : m !! "name" = Some n.
Hypothesis Hdescription : m !! "description" = Some d.
Hypothesis Hprice : m !! "price" = Some pv.
Hypothesis Havailable : m !! "available" = Some a.
Hypothesis Hcategory : m !! "category" = Some (VStr s).
Hypothesis Hmember : Category_lookup s = Some c.

Lemma getattr_Category_member : getattr_Category (VStr s) = Return (VCategory c).
Proof. cbn [getattr_Category]. rewrite Hmember. reflexivity. Qed.

(** X12. For a mapping with the five entries whose category names a
    member, [deserialize] returns exactly when the name and the description
    are non-empty and the price converts to a decimal that is neither a NaN
    nor negative (an infinite price is among those it accepts). *)
Theorem deserialize_accepts_iff :
  is_return (snd (deserialize (ODict m) r)) = true
  <-> truthy n = true /\ truthy d = true
      /\ exists dec : Decimal,
          Decimal_new pv = Return dec
          /\ Decimal_is_nan dec = false /\ Decimal_negative dec = false.
Proof.
  split.
  - intros H.
    destruct (deserialize (ODict m) r) as [q [x | e]] eqn:Hdes; [| discriminate H].
    apply deserialize_returns in Hdes.
    destruct Hdes as (_ & m' & n' & d' & pv' & a' & cv' & c' & dec & [= <-]
                      & Hn & Hd & Hp & Hdec & _ & _ & _ & _ & Htn & Htd & Hnan & Hneg).
    rewrite Hname in Hn. rewrite Hdescription in Hd. rewrite Hprice in Hp.
    injection Hn as <-. injection Hd as <-. injection Hp as <-.
    eauto 10.
  - intros (Htn & Htd & dec & Hdec & Hnan & Hneg).
    rewrite (deserialize_assigned m r n d pv a (VStr s) (VCategory c) dec
               Hname Hdescription Hprice Hdec Havailable Hcategory
               getattr_Category_member).
    cbv zeta. rewrite Htn, Htd, Hnan, Hneg. reflexivity.
Qed.

(** X13. An integer is accepted as a price when it is not negative, and
    becomes the decimal of that value with exponent zero; a negative
    integer is refused with a validation error. *)
Theorem deserialize_integer_price (z : Z) :
  pv = VInt z -> truthy n = true -> truthy d = true ->
  deserialize (ODict m) r
  = (mkProduct (id r) n d (VDecimal (Decimal_of_int z)) a (VCategory c),
     if (z <? 0)%Z
     then Raise (DataValidationError "Invalid product: price must be >= 0")
     else Return (mkProduct (id r) n d (VDecimal (Decimal_of_int z)) a (VCategory c))).
Proof.
  intros Hpv Htn Htd.
  rewrite (deserialize_assigned m r n d pv a (VStr s) (VCategory c) (Decimal_of_int z)
             Hname Hdescription Hprice).
  - cbv zeta. rewrite Htn, Htd. cbn [negb orb Decimal_of_int Decimal_is_nan Decimal_negative].
    destruct (Z.ltb_spec z 0) as [Hz | Hz]; cbn [andb].
    + assert (Hnz : (Z.abs_N z =? 0)%N = false) by (apply N.eqb_neq; lia).
      rewrite Hnz. reflexivity.
    + reflexivity.
  - rewrite Hpv. reflexivity.
  - exact Havailable.
  - exact Hcategory.
  - exact getattr_Category_member.
Qed.

End Entries.

Lemma deserialize_accepts_iff_witness :
  <["price" := VStr "Infinity"]> example_data !! "name" = Some (VStr "Hat")
  /\ <["price" := VStr "Infinity"]> example_data !! "description" = Some (VStr "A red hat")
  /\ <["price" := VStr "Infinity"]> example_data !! "price" = Some (VStr "Infinity")
  /\ <["price" := VStr "Infinity"]> example_data !! "available" = Some (VBool true)
  /\ <["price" := VStr "Infinity"]> example_data !! "category" = Some (VStr "CLOTHS")
  /\ Category_lookup "CLOTHS" = Some CLOTHS
  /\ (is_return (snd (deserialize (ODict (<["price" := VStr "Infinity"]> example_data))
                        Product_new)) = true
      <-> truthy (VStr "Hat") = true /\ truthy (VStr "A red hat") = true
          /\ exists dec : Decimal,
              Decimal_new (VStr "Infinity") = Return dec
              /\ Decimal_is_nan dec = false /\ Decimal_negative dec = false).
Proof.
  do 6 (split; [reflexivity |]).
  exact (deserialize_accepts_iff (<["price" := VStr "Infinity"]> example_data) Product_new
           (VStr "Hat") (VStr "A red hat") (VStr "Infinity") (VBool true) "CLOTHS" CLOTHS
           eq_refl eq_refl eq_refl eq_refl eq_refl eq_refl).
Defined.

Lemma deserialize_integer_price_witness :
  <["price" := VInt 12]> example_data !! "name" = Some (VStr "Hat")
  /\ <["price" := VInt 12]> example_data !! "description" = Some (VStr "A red hat")
  /\ <["price" := VInt 12]> example_data !! "price" = Some (VInt 12)
  /\ <["price" := VInt 12]> example_data !! "available" = Some (VBool true)
  /\ <["price" := VInt 12]> example_data !! "category" = Some (VStr "CLOTHS")
  /\ Category_lookup "CLOTHS" = Some CLOTHS
  /\ truthy (VStr "Hat") = true /\ truthy (VStr "A red hat") = true
  /\ deserialize (ODict (<["price" := VInt 12]> example_data)) Product_new
     = (mkProduct None (VStr "Hat") (VStr "A red hat")
          (VDecimal (Finite false 12 0)) (VBool true) (VCategory CLOTHS),
        Return (mkProduct None (VStr "Hat") (VStr "A red hat")
                  (VDecimal (Finite false 12 0)) (VBool true) (VCategory CLOTHS))).
Proof.
  do 8 (split; [reflexivity |]).
  exact (deserialize_integer_price (<["price" := VInt 12]> example_data) Product_new
           (VStr "Hat") (VStr "A red hat") (VInt 12) (VBool true) "CLOTHS" CLOTHS
           eq_refl eq_refl eq_refl eq_refl eq_refl eq_refl 12%Z eq_refl eq_refl eq_refl).
Defined.

(** ** Mappings made by [serialize], then damaged *)

Lemma Product_valid_inv (p : Product) :
  Product_valid p = true ->
  truthy (name p) = true /\ truthy (description p) = true
  /\ exists (dec : Decimal) (c : Category),
      price p = VDecimal dec /\ category p = VCategory c
      /\ Decimal_is_nan dec = false /\ Decimal_negative dec = false.
Proof.
  unfold Product_valid. intros H.
  apply andb_true_iff in H. destruct H as [H Hcat].
  apply andb_true_iff in H. destruct H as [H Hprice].
  apply andb_true_iff in H. destruct H as [Hname Hdesc].
  split; [destruct (name p); try discriminate Hname; exact Hname |].
  split; [destruct (description p); try discriminate Hdesc; exact Hdesc |].
  destruct (category p) as [| | | | | c]; try discriminate Hcat.
  destruct (price p) as [| | | | dec |]; try discriminate Hprice.
  cbn [Decimal_ge_zero] in Hprice.
  apply andb_true_iff in Hprice. destruct Hprice as [Hnan Hneg].
  apply negb_true_iff in Hnan. apply negb_true_iff in Hneg.
  exists dec, c. auto.
Qed.

(** X14. Take the mapping that [serialize] returns for a product that
    satisfies the data-model invariants and remove any one of the five
    required keys: [deserialize] raises the validation error that names
    that key. *)
Theorem deserialize_serialized_without_key (p r : Product) (m : gmap string PyVal)
    (k : string) :
  Product_valid p = true -> snd (serialize p) = Return m -> In k required_keys ->
  snd (deserialize (ODict (base.delete k m)) r)
  = Raise (DataValidationError ("Invalid product: missing " +:+ k)).
Proof.
  intros Hvalid Hser Hin.
  destruct (Product_valid_inv p Hvalid) as (_ & _ & dec & c & Hp & Hc & _ & _).
  rewrite (serialize_valid p c Hc) in Hser. cbn [snd] in Hser. injection Hser as <-.
  rewrite Hp. cbn [py_str].
  assert (Hconv : Decimal_new (VStr (Decimal_str dec)) = Return dec).
  { cbn [Decimal_new]. rewrite Decimal_of_str_str. reflexivity. }
  cbn in Hin.
  destruct Hin as [<- | [<- | [<- | [<- | [<- | []]]]]];
    match goal with
    | |- (deserialize (ODict (base.delete ?key ?data)) r).2 = _ =>
        destruct (deserialize_first_missing (base.delete key data) r key) as (q & ->);
        [reflexivity
        | unfold price_converts;
          first [ solve [intros [[=] | [=]]]
                | intros _;
                  rewrite lookup_delete_ne by discriminate;
                  repeat (rewrite lookup_insert_ne by discriminate);
                  rewrite lookup_insert_eq, Hconv; reflexivity ]
        | reflexivity ]
    end.
Qed.

Lemma deserialize_serialized_without_key_witness :
  Product_valid example_product = true
  /\ (exists m : gmap string PyVal,
         snd (serialize example_product) = Return m
         /\ snd (deserialize (ODict (base.delete "category" m)) Product_new)
            = Raise (DataValidationError "Invalid product: missing category"))
  /\ In "category" required_keys.
Proof.
  split; [reflexivity |]. split; [| cbn; auto 10].
  eexists. split; [reflexivity |].
  refine (deserialize_serialized_without_key example_product Product_new _ "category"
            eq_refl eq_refl _).
  cbn. auto 10.
Defined.

(** X15. Take the mapping that [serialize] returns for a product that
    satisfies the data-model invariants and put, as its price, a string
    that [Decimal] cannot parse: [deserialize] raises the validation error
    of the price, having assigned the name and the description only. *)
Theorem deserialize_serialized_bad_price (p r : Product) (m : gmap string PyVal)
    (s : string) :
  Product_valid p = true -> snd (serialize p) = Return m -> Decimal_of_str s = None ->
  deserialize (ODict (<["price" := VStr s]> m)) r
  = (set_description (description p) (set_name (name p) r),
     Raise (DataValidationError "Invalid price value")).
Proof.
  intros Hvalid Hser Hs.
  destruct (Product_valid_inv p Hvalid) as (_ & _ & dec & c & Hp & Hc & _ & _).
  rewrite (serialize_valid p c Hc) in Hser. cbn [snd] in Hser. injection Hser as <-.
  unfold deserialize, getitem. unfold_monad.
  rewrite lookup_insert_eq.
  rewrite !(lookup_insert_ne _ "price") by discriminate.
  change ((<["id" := id_value (id p)]>
           (<["name" := name p]>
            (<["description" := description p]>
             (<["price" := VStr (py_str (price p))]>
              (<["available" := available p]>
               (<["category" := VStr (Category_name c)]> ∅))))))
            !! "name") with (Some (name p)).
  change ((<["id" := id_value (id p)]>
           (<["name" := name p]>
            (<["description" := description p]>
             (<["price" := VStr (py_str (price p))]>
              (<["available" := available p]>
               (<["category" := VStr (Category_name c)]> ∅))))))
            !! "description") with (Some (description p)).
  cbn [Decimal_new]. rewrite Hs. reflexivity.
Qed.

Lemma deserialize_serialized_bad_price_witness :
  Product_valid example_product = true
  /\ Decimal_of_str "not-a-decimal" = None
  /\ exists m : gmap string PyVal,
      snd (serialize example_product) = Return m
      /\ deserialize (ODict (<["price" := VStr "not-a-decimal"]> m)) Product_new
         = (set_description (VStr "A red hat") (set_name (VStr "Hat") Product_new),
            Raise (DataValidationError "Invalid price value")).
Proof.
  split; [reflexivity |]. split; [reflexivity |].
  eexists. split; [reflexivity |].
  exact (deserialize_serialized_bad_price example_product Product_new _ "not-a-decimal"
           eq_refl eq_refl eq_refl).
Defined.

(** ** The enumeration *)

Lemma Category_lookup_Some (s : string) (c : Category) :
  Category_lookup s = Some c -> Category_name c = s.
Proof.
  unfold Category_lookup, Category_members. cbn [List.find].
  repeat match goal with
         | |- context [String.eqb ?x s] =>
             destruct (String.eqb_spec x s) as [<- | ?]
         end; intros [= <-]; reflexivity.
Qed.

(** X16. The names of the members are one-to-one, and so are their
    values; looking a string up gives a member exactly when the string is
    that member's name, so that a name in another case is not
    recognised. *)
Theorem Category_lookup_iff (s : string) (c c' : Category) :
  (Category_lookup s = Some c <-> Category_name c = s)
  /\ (Category_name c = Category_name c' <-> c = c')
  /\ (Category_value c = Category_value c' <-> c = c')
  /\ (0 <= Category_value c <= 5)%Z.
Proof.
  split; [| split; [| split]].
  - split; [apply Category_lookup_Some |].
    intros <-. apply Category_lookup_name.
  - split; [| intros ->; reflexivity].
    destruct c, c'; (reflexivity || discriminate).
  - split; [| intros ->; reflexivity].
    destruct c, c'; (reflexivity || discriminate).
  - destruct c; cbn; lia.
Qed.

(** ** The query helpers that return lists *)

Lemma query_all_elem (w : World) (p : Product) :
  p ∈ query_all w
  <-> exists (i : Z) (stored : Product),
       rows w !! i = Some stored /\ p = set_id (Some i) stored.
Proof.
  unfold query_all. rewrite list_elem_of_fmap. split.
  - intros ([i stored] & -> & Hin). apply elem_of_map_to_list in Hin.
    exists i, stored. auto.
  - intros (i & stored & Hrow & ->). exists (i, stored).
    split; [reflexivity |]. apply elem_of_map_to_list. exact Hrow.
Qed.

Lemma query_all_elem_wf (w : World) (p : Product) :
  World_wf w -> p ∈ query_all w <-> exists i : Z, rows w !! i = Some p.
Proof.
  intros (_ & _ & Hrows). rewrite query_all_elem. split.
  - intros (i & stored & Hrow & ->). exists i.
    rewrite (set_id_own stored i (proj1 (Hrows i stored Hrow))). exact Hrow.
  - intros (i & Hrow). exists i, p. split; [exact Hrow |].
    symmetry. apply set_id_own. exact (proj1 (Hrows i p Hrow)).
Qed.

Lemma same_member_iff (v : PyVal) (c : Category) :
  same_member v (VCategory c) = true <-> v = VCategory c.
Proof.
  destruct v as [| b | z | s | d | c']; cbn [same_member];
    try (split; [discriminate | discriminate]).
  rewrite Z.eqb_eq. split.
  - intros H. f_equal. destruct c', c; (reflexivity || discriminate H).
  - intros [= ->]. reflexivity.
Qed.

(** X17. In a world that keeps the invariant, [all] returns, in some
    order, the products that the rows hold, as many as there are rows, and
    changes nothing but the log. *)
Theorem all_lists_the_rows (w : World) :
  World_wf w ->
  exists l : list Product,
    all w = (logger INFO "Processing all Products" w, Return l)
    /\ (forall p : Product, p ∈ l <-> exists i : Z, rows w !! i = Some p)
    /\ length l = size (rows w).
Proof.
  intros Hwf. exists (query_all w). split; [reflexivity |]. split.
  - intros p. apply query_all_elem_wf. exact Hwf.
  - unfold query_all. rewrite length_fmap. apply length_map_to_list.
Qed.

Lemma all_lists_the_rows_witness :
  World_wf (snd (fst (create (example_product, World_new))))
  /\ exists l : list Product,
      all (snd (fst (create (example_product, World_new))))
      = (logger INFO "Processing all Products"
           (snd (fst (create (example_product, World_new)))), Return l)
      /\ (forall p : Product,
             p ∈ l
             <-> exists i : Z,
                 rows (snd (fst (create (example_product, World_new)))) !! i = Some p)
      /\ length l = size (rows (snd (fst (create (example_product, World_new))))).
Proof.
  assert (H : World_wf (snd (fst (create (example_product, World_new)))))
    by exact (create_wf _ _ World_new_wf).
  split; [exact H | exact (all_lists_the_rows _ H)].
Defined.

Lemma find_by_category_elem (w : World) (c : Category) (p : Product) :
  World_wf w ->
  p ∈ List.filter (fun q => same_member (category q) (VCategory c)) (query_all w)
  <-> (exists i : Z, rows w !! i = Some p) /\ category p = VCategory c.
Proof.
  intros Hwf. rewrite list_elem_of_In, filter_In, <- list_elem_of_In.
  rewrite same_member_iff, (query_all_elem_wf w p Hwf). reflexivity.
Qed.

(** X18. In a world that keeps the invariant, [find_by_category] of a
    member returns, in some order, exactly the stored products whose
    category is that member, logs the member's name and changes nothing
    else. *)
Theorem find_by_category_selects (w : World) (c : Category) :
  World_wf w ->
  exists l : list Product,
    find_by_category (VCategory c) w
    = (logger INFO ("Processing category query for " +:+ Category_name c +:+ " ...") w,
       Return l)
    /\ forall p : Product,
        p ∈ l <-> (exists i : Z, rows w !! i = Some p) /\ category p = VCategory c.
Proof.
  intros Hwf. eexists. split; [reflexivity |].
  intros p. exact (find_by_category_elem w c p Hwf).
Qed.

Lemma find_by_category_selects_witness :
  World_wf (snd (fst (create (example_product, World_new))))
  /\ exists l : list Product,
      find_by_category (VCategory CLOTHS) (snd (fst (create (example_product, World_new))))
      = (logger INFO ("Processing category query for " +:+ Category_name CLOTHS +:+ " ...")
           (snd (fst (create (example_product, World_new)))),
         Return l)
      /\ forall p : Product,
          p ∈ l
          <-> (exists i : Z,
                  rows (snd (fst (create (example_product, World_new)))) !! i = Some p)
              /\ category p = VCategory CLOTHS.
Proof.
  assert (H : World_wf (snd (fst (create (example_product, World_new)))))
    by exact (create_wf _ _ World_new_wf).
  split; [exact H | exact (find_by_category_selects _ CLOTHS H)].
Defined.

(** X19. [find_by_category] of an argument that is no member of the
    enumeration ([None], a string) raises [AttributeError] when it reads
    the argument's name for the log record: nothing is logged and the table
    is not read. *)
Theorem find_by_category_not_a_member (wanted : PyVal) (w : World) :
  is_member wanted = false ->
  exists msg : string,
    find_by_category wanted w = (w, Raise (AttributeError msg)).
Proof.
  intros H. unfold find_by_category, bind, lift.
  destruct wanted as [| b | z | s | d | c]; try discriminate H;
    eexists; reflexivity.
Qed.

Lemma find_by_category_not_a_member_witness :
  is_member (VStr "FOOD") = false
  /\ exists msg : string,
      find_by_category (VStr "FOOD") World_new = (World_new, Raise (AttributeError msg)).
Proof.
  split; [reflexivity |].
  exact (find_by_category_not_a_member (VStr "FOOD") World_new eq_refl).
Defined.



(** ** From a mapping to a stored product and back *)

Section Accepted.

Variables (m : gmap string PyVal) (w : World).
Variables (n d pv a : PyVal) (s : string) (c : Category) (dec : Decimal).

Hypothesis Hname : m !! "name" = Some n.
Hypothesis Hdescription : m !! "description" = Some d.
Hypothesis Hprice : m !! "price" = Some pv.
Hypothesis Havailable : m !! "available" = Some a.
Hypothesis Hcategory : m !! "category" = Some (VStr s).
Hypothesis Hmember : Category_lookup s = Some c.
Hypothesis Hn : truthy n = true.
Hypothesis Hd : truthy d = true.
Hypothesis Hdecimal : Decimal_new pv = Return dec.
Hypothesis Hnan : Decimal_is_nan dec = false.
Hypothesis Hnegative : Decimal_negative dec = false.
Hypothesis Hwf : World_wf w.



End Accepted.



(** ** Package initialisation *)


